(** * The self-reward training driver ([self_reward_train_cli.py])

    The driver is a straight-line script: it seeds the random generators,
    reads a [ConfigTrain] from the command line, turns the configured recipes
    into framework objects through the dispatchers, prepares the train and
    validation sets, optionally splices the system-template proxy into the
    model, and samples four continuations of a fixed prompt.

    Every call that leaves the script (dispatchers, utilities, the
    transformers / datasets / peft libraries) is an operation of an abstract
    [Framework]: it reads and updates the process state [World] and either
    returns a value or raises.  The script itself is embedded as a program in
    a small monad that threads the [World], propagates exceptions and records
    each call, with its arguments and its outcome, in a trace. *)

From Stdlib Require Import List String Ascii ZArith QArith Bool Lia.
Import ListNotations.
Local Close Scope Q_scope.
Local Open Scope string_scope.

(** ** Python string operations used by the script

    A [str] is held as the bytes of its UTF-8 encoding.  The space is one
    byte that occurs in no other character's encoding, so joining with and
    splitting on [" "] act on the bytes as they act on the characters. *)

Module PyStr.

(** [sep.join(l)] *)
Fixpoint join (sep : string) (l : list string) : string :=
  match l with
  | [] => ""
  | x :: rest =>
      match rest with
      | [] => x
      | _ :: _ => x ++ sep ++ join sep rest
      end
  end.

(** [s.split(sep)] for a separator of one character: every occurrence of
    the separator ends a piece, so [k] separators give [k + 1] pieces and
    consecutive separators give empty pieces. *)
Fixpoint split (sep : ascii) (s : string) : list string :=
  match s with
  | EmptyString => [""]
  | String c rest =>
      if Ascii.eqb c sep then "" :: split sep rest
      else match split sep rest with
           | [] => [String c ""]
           | w :: ws => String c w :: ws
           end
  end.

Definition space : ascii := " "%char.
Definition newline : string := String (ascii_of_nat 10) "".

Fixpoint spaces (n : nat) : string :=
  match n with
  | O => ""
  | S k => String space (spaces k)
  end.

End PyStr.

(** ** Values shared with the libraries *)

(** Outcome of a call: a value or a raised exception. *)
Inductive Exn : Type :=
| AssertionError (msg : string)
| IndexError (msg : string)
| AttributeError (msg : string)
| LibraryException (what : string).

Inductive Result (A : Type) : Type :=
| Ok (a : A)
| Raise (e : Exn).
Arguments Ok {A} a.
Arguments Raise {A} e.

(** The classes a [PeftRecipe] can name in [peft_config_obj]; the script only
    compares against [PromptTuningConfig]. *)
Inductive PeftConfigClass : Type :=
| PromptTuningConfig
| OtherPeftConfig (qualname : string).

Definition peft_class_eqb (a b : PeftConfigClass) : bool :=
  match a, b with
  | PromptTuningConfig, PromptTuningConfig => true
  | OtherPeftConfig x, OtherPeftConfig y => String.eqb x y
  | _, _ => false
  end.

Inductive Level : Type := DEBUG | INFO | WARNING.

(** [transformers.GenerationConfig(...)], the keyword arguments the script
    passes. *)
Record GenerationConfig : Type := {
  max_new_tokens : Z;
  num_return_sequences : Z;
  temperature : Q;
  top_p : Q;
  do_sample : bool;
  pad_token_id : option Z
}.

(** The objects of the libraries.  Their content is not visible to the
    script, only the attributes it reads.  [str_lower] is [s.lower()], the
    lower-casing of the interpreter: it follows the Unicode case tables,
    which are not part of the script, and may change the length of the
    text. *)
Class Objects : Type := {
  World : Type;
  str_lower : string -> string;
  TrainingArguments : Type;
  output_dir : TrainingArguments -> string;
  str_training_arguments : TrainingArguments -> string;
  DatasetRecipe : Type;
  PeftRecipe : Type;
  peft_config_obj : PeftRecipe -> PeftConfigClass;
  ModelRecipe : Type;
  ModelTemplateRecipe : Type;
  PostprocessFunction : Type;
  postprocess_function : ModelTemplateRecipe -> PostprocessFunction;
  TokenizerRecipe : Type;
  QuantizationRecipe : Type;
  QuantizationConfig : Type;
  PeftConfigFields : Type;
  Tokenizer : Type;
  eos_token : Tokenizer -> option string;
  eos_token_id : Tokenizer -> option Z;
  Model : Type;
  Device : Type;
  device : Model -> Device;
  Dataset : Type;
  DatasetSupport : Type;
  SystemTemplate : Type;
  Tensor : Type
}.

Section Driver.

Context {O : Objects}.

(** The adapter configuration returned by [PeftDispatcher]; the script
    reads [num_virtual_tokens] and assigns [prompt_tuning_init_text]. *)
Record PeftConfig : Type := {
  num_virtual_tokens : Z;
  prompt_tuning_init_text : option string;
  peft_fields : PeftConfigFields
}.

Definition set_prompt_tuning_init_text (c : PeftConfig) (text : string) : PeftConfig :=
  {| num_virtual_tokens := num_virtual_tokens c;
     prompt_tuning_init_text := Some text;
     peft_fields := peft_fields c |}.

(** [configs.ConfigTrain], the attributes the script reads. *)
Record ConfigTrain : Type := {
  verbose : bool;
  training_arguments : TrainingArguments;
  model_name : string;
  peft_recipe : option PeftRecipe;
  prompt_tuning_most_common_init : bool;
  dataset_recipe : DatasetRecipe;
  dataset_name : string;
  tokenizer_recipe : TokenizerRecipe;
  model_recipe : ModelRecipe;
  quantization_recipe : option QuantizationRecipe;
  model_template_recipe : ModelTemplateRecipe;
  num_examples : Z;
  num_proc : option Z;
  dynamic_examples : bool;
  validation_split_size : option Q;
  training_size : option Z;
  system_tuning : bool
}.

(** Keyword arguments of [get_support_and_tuning_dataset]; an argument that
    a call leaves out is [None]. *)
Record SupportTuningArgs : Type := {
  kw_split : string;
  kw_num_examples : option Z;
  kw_dataset_support : option DatasetSupport;
  kw_postprocess_function : PostprocessFunction;
  kw_eos_token : option string;
  kw_include_labels_inside_text : bool;
  kw_num_proc : option Z;
  kw_dynamic_examples : bool
}.

(** One entry of the trace per call that leaves the script, with the
    arguments of the call and what it returned.  [Train] is the training
    entry point of [finetuners.FineTuner], imported on line 4. *)
Inductive Event : Type :=
| SetSeed (seed : Z)
| GetConfigFromArgparser (r : Result ConfigTrain)
| SetLevel (lvl : Level)
| Log (lvl : Level) (msg : string)
| GetPeftConfig (recipe : PeftRecipe) (r : Result PeftConfig)
| GetTuningDataset (recipe : DatasetRecipe) (name : string) (split : string)
    (eos : option string) (include_labels_inside_text : bool) (r : Result Dataset)
| GetItem (d : Dataset) (column : string) (r : Result (list string))
| MostCommonWords (words : list string) (n : Z) (r : Result (list string))
| GetTokenizer (recipe : TokenizerRecipe) (name : string) (r : Result Tokenizer)
| GetQuantizationConfig (recipe : QuantizationRecipe) (r : Result QuantizationConfig)
| GetModel (recipe : ModelRecipe) (name : string) (q : option QuantizationConfig)
    (p : option PeftConfig) (r : Result Model)
| GetSupportAndTuningDataset (recipe : DatasetRecipe) (name : string)
    (kw : SupportTuningArgs) (r : Result (DatasetSupport * Dataset))
| TrainTestSplit (d : Dataset) (test_size : Q) (r : Result (Dataset * Dataset))
| Select (d : Dataset) (indices : list Z) (r : Result Dataset)
| FitSystemTemplateTokens (d : Dataset) (recipe : ModelTemplateRecipe) (t : Tokenizer)
    (r : Result SystemTemplate)
| AddProxy (m : Model) (system_template : SystemTemplate) (t : Tokenizer) (r : Result Model)
| Encode (t : Tokenizer) (text : string) (return_tensors : string) (r : Result Tensor)
| To (x : Tensor) (d : Device) (r : Result Tensor)
| Generate (m : Model) (input_ids : Tensor) (g : GenerationConfig) (r : Result (list Tensor))
| Decode (t : Tokenizer) (x : Tensor) (skip_special_tokens : bool) (r : Result string)
| Print (args : list string)
| Train (m : Model) (t : Tokenizer) (train val : Dataset) (a : TrainingArguments)
    (r : Result unit).

(** The operations of the libraries and of the repository's helper modules
    ([dispatchers], [utils]).  Each one may read and change the process
    state (the random generators among it) and may raise. *)
Class Framework : Type := {
  set_seed : Z -> World -> World;
  get_config_from_argparser : World -> Result ConfigTrain * World;
  get_peft_config : PeftRecipe -> World -> Result PeftConfig * World;
  get_tuning_dataset :
    DatasetRecipe -> string -> string -> option string -> bool ->
    World -> Result Dataset * World;
  getitem : Dataset -> string -> World -> Result (list string) * World;
  most_common_words : list string -> Z -> World -> Result (list string) * World;
  get_tokenizer : TokenizerRecipe -> string -> World -> Result Tokenizer * World;
  get_quantization_config :
    QuantizationRecipe -> World -> Result QuantizationConfig * World;
  get_model :
    ModelRecipe -> string -> option QuantizationConfig -> option PeftConfig ->
    World -> Result Model * World;
  get_support_and_tuning_dataset :
    DatasetRecipe -> string -> SupportTuningArgs ->
    World -> Result (DatasetSupport * Dataset) * World;
  train_test_split : Dataset -> Q -> World -> Result (Dataset * Dataset) * World;
  select : Dataset -> list Z -> World -> Result Dataset * World;
  fit_system_template_tokens :
    Dataset -> ModelTemplateRecipe -> Tokenizer -> World -> Result SystemTemplate * World;
  add_proxy : Model -> SystemTemplate -> Tokenizer -> World -> Result Model * World;
  encode : Tokenizer -> string -> string -> World -> Result Tensor * World;
  to : Tensor -> Device -> World -> Result Tensor * World;
  generate :
    Model -> Tensor -> GenerationConfig -> World -> Result (list Tensor) * World;
  decode : Tokenizer -> Tensor -> bool -> World -> Result string * World
}.

Context {F : Framework}.

(** ** The monad of the script *)

Record Outcome (A : Type) : Type := {
  result : Result A;
  world : World;
  trace : list Event
}.
Arguments result {A} o.
Arguments world {A} o.
Arguments trace {A} o.

Definition M (A : Type) : Type := World -> Outcome A.

Definition ret {A} (a : A) : M A :=
  fun w => {| result := Ok a; world := w; trace := [] |}.

Definition raise {A} (e : Exn) : M A :=
  fun w => {| result := Raise e; world := w; trace := [] |}.

(** The outcome [o] of what ran after the events [t]. *)
Definition after_events {A} (t : list Event) (o : Outcome A) : Outcome A :=
  {| result := result o; world := world o; trace := t ++ trace o |}.

Definition bind {A B} (m : M A) (f : A -> M B) : M B :=
  fun w =>
    let o := m w in
    match result o with
    | Ok a => after_events (trace o) (f a (world o))
    | Raise e => {| result := Raise e; world := world o; trace := trace o |}
    end.

(** [try: m  except: handler] with a bare [except], which catches every
    exception; what [m] did before it raised stays done. *)
Definition try_except {A} (m : M A) (handler : M A) : M A :=
  fun w =>
    let o := m w in
    match result o with
    | Ok a => o
    | Raise _ => after_events (trace o) (handler (world o))
    end.

(** A call of a library operation: run it and record the call. *)
Definition call {A} (op : World -> Result A * World) (ev : Result A -> Event) : M A :=
  fun w =>
    let (r, w') := op w in
    {| result := r; world := w'; trace := [ev r] |}.

(** An effect that returns nothing and does not raise. *)
Definition emit (e : Event) : M unit :=
  fun w => {| result := Ok tt; world := w; trace := [e] |}.

Notation "x <- m ;; k" := (bind m (fun x => k))
  (at level 61, m at next level, right associativity).
Notation "' p <- m ;; k" := (bind m (fun p => k))
  (at level 61, p pattern, m at next level, right associativity).
Notation "m ;; k" := (bind m (fun _ => k))
  (at level 61, right associativity).

(** ** Calls of the script *)

Definition transformers_set_seed (seed : Z) : M unit :=
  fun w => {| result := Ok tt; world := set_seed seed w; trace := [SetSeed seed] |}.

Definition logger_setLevel (lvl : Level) : M unit := emit (SetLevel lvl).
Definition logger_debug (msg : string) : M unit := emit (Log DEBUG msg).
Definition logger_info (msg : string) : M unit := emit (Log INFO msg).
Definition logger_warning (msg : string) : M unit := emit (Log WARNING msg).
Definition print (args : list string) : M unit := emit (Print args).

(** [l[0]] *)
Definition first_item (l : list string) : M string :=
  match l with
  | [] => raise (IndexError "list index out of range")
  | x :: _ => ret x
  end.

(** [range(n)] *)
Definition py_range (n : Z) : list Z := map Z.of_nat (seq 0 (Z.to_nat n)).

(** [peft_recipe is not None and peft_recipe.peft_config_obj == PromptTuningConfig],
    the common part of the tests on lines 65 and 152. *)
Definition is_prompt_tuning (recipe : option PeftRecipe) : bool :=
  match recipe with
  | None => false
  | Some r => peft_class_eqb (peft_config_obj r) PromptTuningConfig
  end.

(** ** The script, section by section *)

(** Lines 23-26. *)
Definition argparse_section : M ConfigTrain :=
  config <- call get_config_from_argparser GetConfigFromArgparser ;;
  (if verbose config then logger_setLevel DEBUG else logger_setLevel INFO) ;;
  ret config.

(** Lines 34-53: the training arguments, the model name and the output
    path are read and logged. *)
Definition names_section (config : ConfigTrain) : M (string * string) :=
  let training_arguments := training_arguments config in
  logger_debug ("Training Arguments used: " ++ str_training_arguments training_arguments) ;;
  let model_name := model_name config in
  logger_debug ("Model name: " ++ model_name) ;;
  let output_path := output_dir training_arguments in
  logger_debug ("Output path: " ++ output_path) ;;
  ret (model_name, output_path).

(** Lines 62-72. *)
Definition peft_section (config : ConfigTrain) : M (option PeftConfig) :=
  let peft_recipe := peft_recipe config in
  peft_config <-
    match peft_recipe with
    | Some r => c <- call (get_peft_config r) (GetPeftConfig r) ;; ret (Some c)
    | None => ret None
    end ;;
  if is_prompt_tuning peft_recipe && prompt_tuning_most_common_init config then
    dataset_train <-
      call (get_tuning_dataset (dataset_recipe config) (dataset_name config) "train" (Some "") false)
           (GetTuningDataset (dataset_recipe config) (dataset_name config) "train" (Some "") false) ;;
    texts <- call (getitem dataset_train "text") (GetItem dataset_train "text") ;;
    let words := PyStr.split PyStr.space (str_lower (PyStr.join " " texts)) in
    match peft_config with
    | None => raise (AttributeError "'NoneType' object has no attribute 'num_virtual_tokens'")
    | Some c =>
        common <- call (most_common_words words (num_virtual_tokens c))
                       (MostCommonWords words (num_virtual_tokens c)) ;;
        let c := set_prompt_tuning_init_text c (PyStr.join " " common) in
        logger_debug ("Prompt tuning init text set to: " ++ PyStr.join " " common) ;;
        ret (Some c)
    end
  else ret peft_config.

(** Lines 79-87. *)
Definition model_section (config : ConfigTrain) (model_name : string)
    (peft_config : option PeftConfig) : M (Tokenizer * Model) :=
  let tokenizer_recipe := tokenizer_recipe config in
  tokenizer <- call (get_tokenizer tokenizer_recipe model_name)
                    (GetTokenizer tokenizer_recipe model_name) ;;
  let model_recipe := model_recipe config in
  quantization_config <-
    match quantization_recipe config with
    | Some r => c <- call (get_quantization_config r) (GetQuantizationConfig r) ;; ret (Some c)
    | None => ret None
    end ;;
  model <- call (get_model model_recipe model_name quantization_config peft_config)
                (GetModel model_recipe model_name quantization_config peft_config) ;;
  ret (tokenizer, model).

Definition train_args (config : ConfigTrain) (tokenizer : Tokenizer) : SupportTuningArgs :=
  {| kw_split := "train";
     kw_num_examples := Some (num_examples config);
     kw_dataset_support := None;
     kw_postprocess_function := postprocess_function (model_template_recipe config);
     kw_eos_token := eos_token tokenizer;
     kw_include_labels_inside_text := true;
     kw_num_proc := num_proc config;
     kw_dynamic_examples := dynamic_examples config |}.

Definition validation_args (config : ConfigTrain) (tokenizer : Tokenizer)
    (dataset_support : DatasetSupport) : SupportTuningArgs :=
  {| kw_split := "validation";
     kw_num_examples := None;
     kw_dataset_support := Some dataset_support;
     kw_postprocess_function := postprocess_function (model_template_recipe config);
     kw_eos_token := eos_token tokenizer;
     kw_include_labels_inside_text := true;
     kw_num_proc := num_proc config;
     kw_dynamic_examples := dynamic_examples config |}.

Definition no_validation_message : string :=
  "No validation set is available but validation split size has not been specified".

Definition leakage_warning : string :=
  "Using dynamic examples with splitted sets currently leads to small amount of data leakage between training and validation set,"
  ++ PyStr.spaces 51
  ++ "use with caution as the validation set will likely overperform.".

Definition splitting_message : string :=
  "Validation dataset not found, splitting train into two different sets.".

Definition first_train_message : string :=
  "First prompt for training set:" ++ PyStr.newline.

Definition first_val_message : string :=
  "First prompt for validation set:" ++ PyStr.newline.

(** Lines 126-131, the body of the [except] clause. *)
Definition split_fallback (config : ConfigTrain) (dataset_train : Dataset)
    : M (Dataset * Dataset) :=
  match validation_split_size config with
  | None => raise (AssertionError no_validation_message)
  | Some size =>
      logger_info splitting_message ;;
      (if dynamic_examples config then logger_warning leakage_warning else ret tt) ;;
      ' (train, test) <- call (train_test_split dataset_train size)
                              (TrainTestSplit dataset_train size) ;;
      ret (train, test)
  end.

(** Lines 133-137: the training set is cut to [training_size] examples when
    that is set ([None] and [0] are false), and the first prompt of each set
    is logged. *)
Definition subset_and_log (config : ConfigTrain) (dataset_support : DatasetSupport)
    (dataset_train dataset_val : Dataset) : M (DatasetSupport * Dataset * Dataset) :=
  dataset_train <-
    match training_size config with
    | Some n =>
        if negb (n =? 0)%Z then
          call (select dataset_train (py_range n)) (Select dataset_train (py_range n))
        else ret dataset_train
    | None => ret dataset_train
    end ;;
  train_text <- call (getitem dataset_train "text") (GetItem dataset_train "text") ;;
  first_train <- first_item train_text ;;
  logger_debug (first_train_message ++ first_train) ;;
  val_text <- call (getitem dataset_val "text") (GetItem dataset_val "text") ;;
  first_val <- first_item val_text ;;
  logger_debug (first_val_message ++ first_val) ;;
  ret (dataset_support, dataset_train, dataset_val).

(** Lines 104-137. *)
Definition dataset_section (config : ConfigTrain) (tokenizer : Tokenizer)
    : M (DatasetSupport * Dataset * Dataset) :=
  let dataset_name := dataset_name config in
  let dataset_recipe := dataset_recipe config in
  ' (dataset_support, dataset_train) <-
    call (get_support_and_tuning_dataset dataset_recipe dataset_name (train_args config tokenizer))
         (GetSupportAndTuningDataset dataset_recipe dataset_name (train_args config tokenizer)) ;;
  ' (dataset_train, dataset_val) <-
    try_except
      (' (_, dataset_val) <-
         call (get_support_and_tuning_dataset dataset_recipe dataset_name
                 (validation_args config tokenizer dataset_support))
              (GetSupportAndTuningDataset dataset_recipe dataset_name
                 (validation_args config tokenizer dataset_support)) ;;
       ret (dataset_train, dataset_val))
      (split_fallback config dataset_train) ;;
  subset_and_log config dataset_support dataset_train dataset_val.

Definition system_tuning_message : string :=
  "Added system tuning modification as requested".

(** Lines 152-155. *)
Definition system_template_section (config : ConfigTrain) (tokenizer : Tokenizer)
    (model : Model) (dataset_train : Dataset) : M Model :=
  if is_prompt_tuning (peft_recipe config) && system_tuning config then
    system_template <-
      call (fit_system_template_tokens dataset_train (model_template_recipe config) tokenizer)
           (FitSystemTemplateTokens dataset_train (model_template_recipe config) tokenizer) ;;
    model <- call (add_proxy model system_template tokenizer)
                  (AddProxy model system_template tokenizer) ;;
    logger_debug system_tuning_message ;;
    ret model
  else ret model.

Definition test_prompt : string :=
  "[INST] This is a test, answer with a fun fact about life: [/INST]".

Definition banner : string := PyStr.newline ++ "###########" ++ PyStr.newline.

Definition generation_config (tokenizer : Tokenizer) : GenerationConfig :=
  {| max_new_tokens := 100;
     num_return_sequences := 4;
     temperature := 0.6;
     top_p := 0.9;
     do_sample := true;
     pad_token_id := eos_token_id tokenizer |}.

(** Lines 170-172, the loop over the generated sequences. *)
Fixpoint print_outputs (tokenizer : Tokenizer) (outputs : list Tensor) : M unit :=
  match outputs with
  | [] => ret tt
  | output :: rest =>
      generated_texts <- call (decode tokenizer output true) (Decode tokenizer output true) ;;
      print [banner; generated_texts] ;;
      print_outputs tokenizer rest
  end.

(** Lines 159-172. *)
Definition generation_section (tokenizer : Tokenizer) (model : Model) : M unit :=
  encoded <- call (encode tokenizer test_prompt "pt") (Encode tokenizer test_prompt "pt") ;;
  input_ids <- call (to encoded (device model)) (To encoded (device model)) ;;
  outputs <- call (generate model input_ids (generation_config tokenizer))
                  (Generate model input_ids (generation_config tokenizer)) ;;
  print_outputs tokenizer outputs.

(** Lines 152-172: what follows the preparation of the data sets. *)
Definition after_datasets (config : ConfigTrain) (tokenizer : Tokenizer) (model : Model)
    (dataset_train : Dataset) : M unit :=
  model <- system_template_section config tokenizer model dataset_train ;;
  generation_section tokenizer model.

(** Lines 104-172: what follows the construction of the model. *)
Definition after_model (config : ConfigTrain) (tokenizer : Tokenizer) (model : Model)
    : M unit :=
  ' (dataset_support, dataset_train, dataset_val) <- dataset_section config tokenizer ;;
  after_datasets config tokenizer model dataset_train.

(** Lines 34-172: what the script does with the parsed configuration. *)
Definition run (config : ConfigTrain) : M unit :=
  ' (model_name, output_path) <- names_section config ;;
  peft_config <- peft_section config ;;
  ' (tokenizer, model) <- model_section config model_name peft_config ;;
  after_model config tokenizer model.

(** The [__main__] block, lines 18-172. *)
Definition main_block : M unit :=
  config <- argparse_section ;;
  run config.

(** The whole script: line 15 at import time, then the [__main__] block. *)
Definition main : M unit :=
  transformers_set_seed 42 ;;
  main_block.

(** ** Properties of traces *)

(** [each_event_from I pre t]: every event of [t] satisfies [I], which also
    sees what happened before the event ([pre], then the events of [t] in
    front of it). *)
Definition each_event_from (I : list Event -> Event -> Prop) (pre t : list Event) : Prop :=
  forall t1 e t2, t = (t1 ++ e :: t2)%list -> I (pre ++ t1)%list e.

Definition each_event (I : list Event -> Event -> Prop) (t : list Event) : Prop :=
  each_event_from I [] t.

(** [spec I pre m Q E]: started after the events [pre], the program [m]
    only performs events that satisfy [I]; when it returns [a] the history
    satisfies [Q a], when it raises [e] the history satisfies [E e]. *)
Definition spec {A} (I : list Event -> Event -> Prop) (pre : list Event) (m : M A)
    (Q : A -> list Event -> Prop) (E : Exn -> list Event -> Prop) : Prop :=
  forall w,
    each_event_from I pre (trace (m w)) /\
    match result (m w) with
    | Ok a => Q a (pre ++ trace (m w))%list
    | Raise e => E e (pre ++ trace (m w))%list
    end.

(** The configuration the argument parser returned in a run. *)
Definition parsed (t : list Event) (config : ConfigTrain) : Prop :=
  In (GetConfigFromArgparser (Ok config)) t.

End Driver.

Arguments result {O A} o.
Arguments world {O A} o.
Arguments trace {O A} o.

(** * What the claims say about a trace *)

Section Statements.

Local Open Scope list_scope.

Context {O : Objects}.

(** The events of a run before [run config] starts. *)
Definition prelude (config : ConfigTrain) : list Event :=
  [SetSeed 42; GetConfigFromArgparser (Ok config);
   SetLevel (if verbose config then DEBUG else INFO)].

Definition is_train (e : Event) : bool :=
  match e with Train _ _ _ _ _ _ => true | _ => false end.

Definition is_generate (e : Event) : bool :=
  match e with Generate _ _ _ _ => true | _ => false end.

(** Events that only occur before [run config]. *)
Definition is_prelude (e : Event) : bool :=
  match e with
  | SetSeed _ | GetConfigFromArgparser _ | SetLevel _ => true
  | _ => false
  end.

(** The events of the loop on lines 170-172. *)
Definition is_output (e : Event) : bool :=
  match e with
  | Decode _ _ _ _ | Print _ => true
  | _ => false
  end.

(** The calls that turn a recipe into an object. *)
Definition is_dispatch (e : Event) : bool :=
  match e with
  | GetPeftConfig _ _ | GetTuningDataset _ _ _ _ _ _ | GetTokenizer _ _ _
  | GetQuantizationConfig _ _ | GetModel _ _ _ _ _
  | GetSupportAndTuningDataset _ _ _ _ => true
  | _ => false
  end.

(** What [run config] never does: it does not parse or seed again and it
    does not train. *)
Definition run_event (pre : list Event) (e : Event) : Prop :=
  is_prelude e = false /\ is_train e = false.

(** *** The generation check *)

(** The events of the loop on lines 170-172 when every [decode] returns. *)
Definition printed (tokenizer : Tokenizer) (outputs : list Tensor) (texts : list string)
    : list Event :=
  flat_map (fun ot => [Decode tokenizer (fst ot) true (Ok (snd ot)); Print [banner; snd ot]])
           (combine outputs texts).

Definition sanity_check_event (pre : list Event) (e : Event) : Prop :=
  match e with
  | Generate m input_ids g _ =>
      exists tokenizer encoded,
        In (Encode tokenizer test_prompt "pt" (Ok encoded)) pre /\
        In (To encoded (device m) (Ok input_ids)) pre /\
        g = generation_config tokenizer
  | _ => True
  end.

Definition sanity_check_printed (h : list Event) : Prop :=
  exists pre m input_ids tokenizer outputs texts,
    List.length texts = List.length outputs /\
    h = pre ++ Generate m input_ids (generation_config tokenizer) (Ok outputs)
            :: printed tokenizer outputs texts.

(** *** The system template *)


Definition model_from_dispatch (config : ConfigTrain) (pre : list Event) (m : Model) : Prop :=
  exists q p, In (GetModel (model_recipe config) (model_name config) q p (Ok m)) pre.


(** *** The order of the pipeline *)

Definition pipeline_order_event (pre : list Event) (e : Event) : Prop :=
  (is_dispatch e = true -> exists config, In (GetConfigFromArgparser (Ok config)) pre) /\
  match e with
  | GetModel _ _ q p _ =>
      (exists recipe name tokenizer, In (GetTokenizer recipe name (Ok tokenizer)) pre) /\
      (forall c, q = Some c -> exists recipe, In (GetQuantizationConfig recipe (Ok c)) pre) /\
      (forall c, p = Some c -> exists recipe c0, In (GetPeftConfig recipe (Ok c0)) pre)
  | Generate _ _ _ _ =>
      exists recipe name q p m, In (GetModel recipe name q p (Ok m)) pre
  | _ => True
  end.

(** *** The dispatchers *)

Definition tokenizer_from_dispatch (config : ConfigTrain) (pre : list Event) (t : Tokenizer)
    : Prop :=
  In (GetTokenizer (tokenizer_recipe config) (model_name config) (Ok t)) pre.

Definition quantization_from_dispatch (config : ConfigTrain) (pre : list Event)
    (q : option QuantizationConfig) : Prop :=
  match q with
  | None => quantization_recipe config = None
  | Some c =>
      exists recipe,
        quantization_recipe config = Some recipe /\
        In (GetQuantizationConfig recipe (Ok c)) pre
  end.

(** The adapter configuration is the dispatcher's, up to the initial text
    that lines 65-72 may assign. *)
Definition peft_from_dispatch (config : ConfigTrain) (pre : list Event)
    (p : option PeftConfig) : Prop :=
  match p with
  | None => peft_recipe config = None
  | Some c =>
      exists recipe c0,
        peft_recipe config = Some recipe /\
        In (GetPeftConfig recipe (Ok c0)) pre /\
        num_virtual_tokens c = num_virtual_tokens c0 /\
        peft_fields c = peft_fields c0
  end.

(** A data set of the run: one that [DatasetDispatcher] returned for the
    configured recipe and name, or a split or a selection of such a set. *)
Inductive dataset_from_dispatch (config : ConfigTrain) (pre : list Event) : Dataset -> Prop :=
| from_tuning split eos labels d :
    In (GetTuningDataset (dataset_recipe config) (dataset_name config) split eos labels (Ok d))
       pre ->
    dataset_from_dispatch config pre d
| from_support_and_tuning kw support d :
    In (GetSupportAndTuningDataset (dataset_recipe config) (dataset_name config) kw
          (Ok (support, d))) pre ->
    dataset_from_dispatch config pre d
| from_split_train d0 size d d' :
    In (TrainTestSplit d0 size (Ok (d, d'))) pre ->
    dataset_from_dispatch config pre d0 ->
    dataset_from_dispatch config pre d
| from_split_test d0 size d d' :
    In (TrainTestSplit d0 size (Ok (d', d))) pre ->
    dataset_from_dispatch config pre d0 ->
    dataset_from_dispatch config pre d
| from_select d0 indices d :
    In (Select d0 indices (Ok d)) pre ->
    dataset_from_dispatch config pre d0 ->
    dataset_from_dispatch config pre d.

Definition dispatch_event (config : ConfigTrain) (pre : list Event) (e : Event) : Prop :=
  match e with
  | GetTokenizer recipe name _ =>
      recipe = tokenizer_recipe config /\ name = model_name config
  | GetQuantizationConfig recipe _ => quantization_recipe config = Some recipe
  | GetPeftConfig recipe _ => peft_recipe config = Some recipe
  | GetModel recipe name q p _ =>
      recipe = model_recipe config /\ name = model_name config /\
      quantization_from_dispatch config pre q /\ peft_from_dispatch config pre p
  | GetTuningDataset recipe name _ _ _ _ =>
      recipe = dataset_recipe config /\ name = dataset_name config
  | GetSupportAndTuningDataset recipe name kw _ =>
      recipe = dataset_recipe config /\ name = dataset_name config /\
      exists t, tokenizer_from_dispatch config pre t /\ kw_eos_token kw = eos_token t
  | GetItem d _ _ | TrainTestSplit d _ _ | Select d _ _ =>
      dataset_from_dispatch config pre d
  | FitSystemTemplateTokens d _ t _ =>
      dataset_from_dispatch config pre d /\ tokenizer_from_dispatch config pre t
  | AddProxy m _ t _ =>
      model_from_dispatch config pre m /\ tokenizer_from_dispatch config pre t
  | Encode t _ _ _ | Decode t _ _ _ => tokenizer_from_dispatch config pre t
  | Generate m _ _ _ =>
      model_from_dispatch config pre m \/
      exists m0 system_template t,
        model_from_dispatch config pre m0 /\ In (AddProxy m0 system_template t (Ok m)) pre
  | _ => True
  end.

(** *** The validation split *)

(** A call for the validation split that raised. *)
Definition validation_failed (e : Event) : bool :=
  match e with
  | GetSupportAndTuningDataset _ _ kw (Raise _) => String.eqb (kw_split kw) "validation"
  | _ => false
  end.

(** Without a [validation_split_size] nothing happens after a failed call
    for the validation split. *)
Definition no_fallback_event (config : ConfigTrain) (pre : list Event) (e : Event) : Prop :=
  validation_split_size config = None -> existsb validation_failed pre = false.

Definition no_fallback_returns (config : ConfigTrain) (h : list Event) : Prop :=
  validation_split_size config = None -> existsb validation_failed h = false.

Definition no_fallback_raises (config : ConfigTrain) (e : Exn) (h : list Event) : Prop :=
  validation_split_size config = None -> existsb validation_failed h = true ->
  e = AssertionError no_validation_message.

(** What [dataset_section] does once the call for the training split has
    returned [(support, train)] and the call for the validation split has
    raised [e], leaving the process in state [w]. *)
Definition fallback_outcome {F : Framework} (config : ConfigTrain) (tokenizer : Tokenizer)
    (support : DatasetSupport) (train : Dataset) (e : Exn) (w : World)
    (o : Outcome (DatasetSupport * Dataset * Dataset)) : Prop :=
  let calls :=
    [GetSupportAndTuningDataset (dataset_recipe config) (dataset_name config)
       (train_args config tokenizer) (Ok (support, train));
     GetSupportAndTuningDataset (dataset_recipe config) (dataset_name config)
       (validation_args config tokenizer support) (Raise e)] in
  match validation_split_size config with
  | None =>
      o = {| result := Raise (AssertionError no_validation_message);
             world := w;
             trace := calls |}
  | Some size =>
      let logs :=
        Log INFO splitting_message
        :: (if dynamic_examples config then [Log WARNING leakage_warning] else []) in
      match train_test_split train size w with
      | (Raise e', w') =>
          o = {| result := Raise e';
                 world := w';
                 trace := calls ++ logs ++ [TrainTestSplit train size (Raise e')] |}
      | (Ok (new_train, new_val), w') =>
          o = after_events
                (calls ++ logs ++ [TrainTestSplit train size (Ok (new_train, new_val))])
                (subset_and_log config support new_train new_val w')
      end
  end.

(** *** The initial text of prompt tuning *)

(** The test on line 65. *)
Definition most_common_init_applies (config : ConfigTrain) : bool :=
  is_prompt_tuning (peft_recipe config) && prompt_tuning_most_common_init config.

(** Lines 70-71: the words of the training texts and the text made of the
    most common ones. *)
Definition words_of (texts : list string) : list string :=
  PyStr.split PyStr.space (str_lower (PyStr.join " " texts)).


End Statements.

(** * A small framework to run the script on

    Recipes and objects are plain strings and lists, the process state is
    the state of the random generator, and the command line and the
    presence of a validation split are parameters. *)

Module Toy.

Local Open Scope list_scope.

(** The lower-casing of the small framework: the letters [A]..[Z] become
    [a]..[z]; its texts hold no other cased letter.  A letter [A]..[Z] has
    the bits [010] in front and a number from 1 to 26 in its five low bits;
    its lower-case form has the bits [011] in front. *)
Definition lower_letter (c : ascii) : ascii :=
  match c with
  | Ascii b0 b1 b2 b3 b4 false true false =>
      if (b0 || b1 || b2 || b3 || b4) && negb (b4 && b3 && (b2 || (b1 && b0)))
      then Ascii b0 b1 b2 b3 b4 true true false
      else c
  | _ => c
  end.

Fixpoint lower_text (s : string) : string :=
  match s with
  | EmptyString => EmptyString
  | String c rest => String (lower_letter c) (lower_text rest)
  end.

Definition objects : Objects :=
  {| World := Z;
     str_lower := lower_text;
     TrainingArguments := string;
     output_dir := fun a => a;
     str_training_arguments := fun a => a;
     DatasetRecipe := string;
     PeftRecipe := PeftConfigClass;
     peft_config_obj := fun r => r;
     ModelRecipe := string;
     ModelTemplateRecipe := string;
     PostprocessFunction := string;
     postprocess_function := fun r => r;
     TokenizerRecipe := string;
     QuantizationRecipe := string;
     QuantizationConfig := string;
     PeftConfigFields := unit;
     Tokenizer := string;
     eos_token := fun _ => Some "</s>";
     eos_token_id := fun _ => Some 2%Z;
     Model := list string;
     Device := string;
     device := fun _ => "cpu";
     Dataset := list string;
     DatasetSupport := list string;
     SystemTemplate := string;
     Tensor := list Z |}.

#[local] Existing Instance objects.

Definition split_of (kw : SupportTuningArgs) (has_validation : bool) (w : World)
    : Result (DatasetSupport * Dataset) * World :=
  if String.eqb (kw_split kw) "validation" then
    if has_validation then (Ok (["shot"], ["v1"]), w)
    else (Raise (LibraryException "unknown split"), w)
  else (Ok (["shot"], ["p1"; "p2"; "p3"; "p4"]), w).

Definition framework (argv : Result ConfigTrain) (has_validation : bool) : Framework :=
  {| set_seed := fun seed _ => seed;
     get_config_from_argparser := fun w => (argv, w);
     get_peft_config := fun _ w =>
       (Ok {| num_virtual_tokens := 2; prompt_tuning_init_text := None; peft_fields := tt |}, w);
     get_tuning_dataset := fun _ _ _ _ _ w => (Ok ["The cat and THE dog"; "the end"], w);
     getitem := fun d _ w => (Ok d, w);
     most_common_words := fun words n w => (Ok (firstn (Z.to_nat n) words), w);
     get_tokenizer := fun _ name w => (Ok name, w);
     get_quantization_config := fun recipe w => (Ok recipe, w);
     get_model := fun _ name _ _ w => (Ok [name], w);
     get_support_and_tuning_dataset := fun _ _ kw w => split_of kw has_validation w;
     train_test_split := fun d _ w => (Ok (firstn 3 d, skipn 3 d), (w + 1)%Z);
     select := fun d indices w => (Ok (firstn (List.length indices) d), w);
     fit_system_template_tokens := fun _ recipe _ w => (Ok recipe, w);
     add_proxy := fun m system_template _ w => (Ok (system_template :: m), w);
     encode := fun _ _ _ w => (Ok [1; 2; 3]%Z, w);
     to := fun x _ w => (Ok x, w);
     generate := fun _ _ _ w => (Ok [[w]; [w + 1]; [w + 2]; [w + 3]]%Z, (w + 4)%Z);
     decode := fun _ _ _ w => (Ok "a fact", w) |}.

(** A configuration without adapter and without quantization. *)
Definition plain_config : ConfigTrain :=
  {| verbose := false;
     training_arguments := "out";
     model_name := "llama";
     peft_recipe := None;
     prompt_tuning_most_common_init := false;
     dataset_recipe := "gsm8k";
     dataset_name := "gsm8k";
     tokenizer_recipe := "llama";
     model_recipe := "llama";
     quantization_recipe := None;
     model_template_recipe := "llama-chat";
     num_examples := 2;
     num_proc := None;
     dynamic_examples := false;
     validation_split_size := None;
     training_size := None;
     system_tuning := false |}.

(** A prompt-tuning configuration with every option of the script on. *)
Definition prompt_config : ConfigTrain :=
  {| verbose := true;
     training_arguments := "out";
     model_name := "llama";
     peft_recipe := Some PromptTuningConfig;
     prompt_tuning_most_common_init := true;
     dataset_recipe := "gsm8k";
     dataset_name := "gsm8k";
     tokenizer_recipe := "llama";
     model_recipe := "llama";
     quantization_recipe := Some "int4";
     model_template_recipe := "llama-chat";
     num_examples := 2;
     num_proc := Some 4%Z;
     dynamic_examples := true;
     validation_split_size := Some 0.25%Q;
     training_size := Some 2%Z;
     system_tuning := true |}.

(** The script with [plain_config] on the command line and a validation
    split on the hub. *)
Definition plain_run (w : World) : Outcome unit :=
  @main objects (framework (Ok plain_config) true) w.

(** The same without a validation split. *)
Definition plain_run_no_validation (w : World) : Outcome unit :=
  @main objects (framework (Ok plain_config) false) w.

(** The script with [prompt_config] and no validation split. *)
Definition prompt_run (w : World) : Outcome unit :=
  @main objects (framework (Ok prompt_config) false) w.

End Toy.

(** * Further statements about a trace *)

Section MoreStatements.

Local Open Scope list_scope.

Context {O : Objects}.

(** *** Exceptions *)

Definition exn_of {A} (r : Result A) : option Exn :=
  match r with
  | Ok _ => None
  | Raise e => Some e
  end.

(** The exception a call raised, if it did. *)
Definition raised (e : Event) : option Exn :=
  match e with
  | SetSeed _ | SetLevel _ | Log _ _ | Print _ => None
  | GetConfigFromArgparser r => exn_of r
  | GetPeftConfig _ r => exn_of r
  | GetTuningDataset _ _ _ _ _ r => exn_of r
  | GetItem _ _ r => exn_of r
  | MostCommonWords _ _ r => exn_of r
  | GetTokenizer _ _ r => exn_of r
  | GetQuantizationConfig _ r => exn_of r
  | GetModel _ _ _ _ r => exn_of r
  | GetSupportAndTuningDataset _ _ _ r => exn_of r
  | TrainTestSplit _ _ r => exn_of r
  | Select _ _ r => exn_of r
  | FitSystemTemplateTokens _ _ _ r => exn_of r
  | AddProxy _ _ _ r => exn_of r
  | Encode _ _ _ r => exn_of r
  | To _ _ r => exn_of r
  | Generate _ _ _ r => exn_of r
  | Decode _ _ _ r => exn_of r
  | Train _ _ _ _ _ r => exn_of r
  end.

(** A call that raised outside the [try] of lines 115-123. *)
Definition uncaught (e : Event) : bool :=
  match raised e with
  | Some _ => negb (validation_failed e)
  | None => false
  end.

(** Why a run that ends on the event [x] raises [e]: [x] is a call that
    raised [e]; or [x] is the failed call for the validation split and [e]
    the assertion error of line 126; or [x] read an empty [text] column and
    [e] is the error of the [[0]] of lines 136-137. *)
Definition failure_cause (x : Event) (e : Exn) : Prop :=
  raised x = Some e \/
  (validation_failed x = true /\ e = AssertionError no_validation_message) \/
  (exists d, x = GetItem d "text" (Ok []) /\ e = IndexError "list index out of range").

Definition propagation_event (pre : list Event) (e : Event) : Prop :=
  existsb uncaught pre = false.

Definition propagation_returns (h : list Event) : Prop :=
  existsb uncaught h = false.

Definition propagation_raises (e : Exn) (h : list Event) : Prop :=
  exists pre x, h = pre ++ [x] /\ failure_cause x e.

(** *** The first prompts *)

(** The events of lines 152-172. *)
Definition is_after_datasets (e : Event) : bool :=
  match e with
  | FitSystemTemplateTokens _ _ _ _ | AddProxy _ _ _ _ | Encode _ _ _ _ | To _ _ _
  | Generate _ _ _ _ | Decode _ _ _ _ | Print _ => true
  | _ => false
  end.

(** The events of lines 104-172 that are not repeated. *)
Definition is_after_model (e : Event) : bool :=
  match e with
  | TrainTestSplit _ _ _ | Select _ _ _ => true
  | _ => is_after_datasets e
  end.

(** The training set that a call leaves in [dataset_train]: the call of
    line 107, the split of line 130 and the selection of line 133 assign
    it. *)
Definition train_of (e : Event) : option Dataset :=
  match e with
  | GetSupportAndTuningDataset _ _ kw (Ok (_, d)) =>
      if String.eqb (kw_split kw) "train" then Some d else None
  | TrainTestSplit _ _ (Ok (d, _)) => Some d
  | Select _ _ (Ok d) => Some d
  | _ => None
  end.

(** The validation set that a call leaves in [dataset_val]: the call of
    line 116 and the split of line 130 assign it. *)
Definition val_of (e : Event) : option Dataset :=
  match e with
  | GetSupportAndTuningDataset _ _ kw (Ok (_, d)) =>
      if String.eqb (kw_split kw) "validation" then Some d else None
  | TrainTestSplit _ _ (Ok (_, d)) => Some d
  | _ => None
  end.

(** The last value that [f] finds in the events of [h]. *)
Definition latest {A} (f : Event -> option A) (h : list Event) : option A :=
  fold_left (fun found e => match f e with Some a => Some a | None => found end) h None.

(** The events of lines 136-137 when both columns have a first item. *)
Definition first_prompts (d : Dataset) (x : string) (l : list string)
    (d' : Dataset) (y : string) (l' : list string) : list Event :=
  [GetItem d "text" (Ok (x :: l)); Log DEBUG (first_train_message ++ x)%string;
   GetItem d' "text" (Ok (y :: l')); Log DEBUG (first_val_message ++ y)%string].

(** The [text] column of the training set [d] and then that of the
    validation set were read, each was not empty, and each first item was
    put in its debug message right after the reading. *)
Definition first_prompts_logged (pre : list Event) (d : Dataset) : Prop :=
  exists h x l d' y l' h',
    pre = h ++ first_prompts d x l d' y l' ++ h' /\
    latest train_of h = Some d /\
    latest val_of h = Some d'.

Definition first_prompts_event (pre : list Event) (e : Event) : Prop :=
  is_after_datasets e = true ->
  exists d,
    first_prompts_logged pre d /\
    match e with
    | FitSystemTemplateTokens d0 _ _ _ => d0 = d
    | _ => True
    end.

(** *** The size of the training set *)

Definition training_size_event (config : ConfigTrain) (pre : list Event) (e : Event)
    : Prop :=
  match e with
  | Select _ indices _ =>
      exists n, training_size config = Some n /\ n <> 0%Z /\ indices = py_range n
  | FitSystemTemplateTokens d _ _ _ =>
      forall n, training_size config = Some n -> n <> 0%Z ->
                exists d0, In (Select d0 (py_range n) (Ok d)) pre
  | _ => True
  end.

(** *** The arguments of the data set calls *)

Definition dataset_call_event (config : ConfigTrain) (pre : list Event) (e : Event)
    : Prop :=
  match e with
  | GetTuningDataset _ _ split eos labels _ =>
      split = "train" /\ eos = Some "" /\ labels = false /\
      most_common_init_applies config = true
  | GetSupportAndTuningDataset _ _ kw _ =>
      exists t,
        tokenizer_from_dispatch config pre t /\
        (kw = train_args config t \/
         exists support d,
           In (GetSupportAndTuningDataset (dataset_recipe config) (dataset_name config)
                 (train_args config t) (Ok (support, d))) pre /\
           kw = validation_args config t support)
  | _ => True
  end.

(** *** How often a call is made *)

Definition kind (e : Event) : nat :=
  match e with
  | SetSeed _ => 0
  | GetConfigFromArgparser _ => 1
  | SetLevel _ => 2
  | Log _ _ => 3
  | GetPeftConfig _ _ => 4
  | GetTuningDataset _ _ _ _ _ _ => 5
  | GetItem _ _ _ => 6
  | MostCommonWords _ _ _ => 7
  | GetTokenizer _ _ _ => 8
  | GetQuantizationConfig _ _ => 9
  | GetModel _ _ _ _ _ => 10
  | GetSupportAndTuningDataset _ _ _ _ => 11
  | TrainTestSplit _ _ _ => 12
  | Select _ _ _ => 13
  | FitSystemTemplateTokens _ _ _ _ => 14
  | AddProxy _ _ _ _ => 15
  | Encode _ _ _ _ => 16
  | To _ _ _ => 17
  | Generate _ _ _ _ => 18
  | Decode _ _ _ _ => 19
  | Print _ => 20
  | Train _ _ _ _ _ _ => 21
  end.

(** The calls that the script makes more than once: logging, the reading of
    a [text] column, the two calls of lines 107 and 116, and the loop. *)
Definition repeatable (e : Event) : bool :=
  match e with
  | Log _ _ | GetItem _ _ _ | GetSupportAndTuningDataset _ _ _ _
  | Decode _ _ _ _ | Print _ => true
  | _ => false
  end.

Definition same_kind (e x : Event) : bool := Nat.eqb (kind x) (kind e).

Definition once_event (pre : list Event) (e : Event) : Prop :=
  repeatable e = false -> existsb (same_kind e) pre = false.

(** *** The messages of the fallback *)

Definition fallback_log_event (config : ConfigTrain) (pre : list Event) (e : Event)
    : Prop :=
  match e with
  | Log INFO msg =>
      msg = splitting_message /\
      existsb validation_failed pre = true /\
      validation_split_size config <> None
  | Log WARNING msg =>
      msg = leakage_warning /\
      dynamic_examples config = true /\
      existsb validation_failed pre = true
  | _ => True
  end.

End MoreStatements.

(** *** The words of line 70 *)

Fixpoint count_char (c : ascii) (s : string) : nat :=
  match s with
  | EmptyString => 0
  | String x rest => (if Ascii.eqb x c then 1 else 0) + count_char c rest
  end.

(** * The string operations on small inputs *)

Example join_words : PyStr.join " " ["The cat"; "sat"] = "The cat sat".
Proof. reflexivity. Qed.

Example split_keeps_empty_pieces : PyStr.split PyStr.space "a  b " = ["a"; ""; "b"; ""].
Proof. reflexivity. Qed.

Example split_empty : PyStr.split PyStr.space "" = [""].
Proof. reflexivity. Qed.

Example toy_lower_text : Toy.lower_text "The CAT, 2 [INST]" = "the cat, 2 [inst]".
Proof. reflexivity. Qed.

(** * Reasoning about runs *)

Section Rules.

Local Open Scope list_scope.

Context {O : Objects} {F : Framework}.

Lemma each_event_from_nil I pre : each_event_from I pre [].
Proof. intros [|x t1] e t2 H; discriminate H. Qed.

Lemma each_event_from_one I pre e : I pre e -> each_event_from I pre [e].
Proof.
  intros H [|x t1] e' t2 Heq; simpl in Heq.
  - injection Heq as <- _. now rewrite app_nil_r.
  - injection Heq as _ Heq. destruct t1; discriminate Heq.
Qed.

Lemma each_event_from_app I pre t t' :
  each_event_from I pre t -> each_event_from I (pre ++ t) t' ->
  each_event_from I pre (t ++ t').
Proof.
  intros H H' t1 e t2 Heq.
  apply app_eq_app in Heq as [l [[-> Hl] | [-> Hl]]].
  - destruct l as [|x l]; simpl in Hl.
    + subst t'. specialize (H' [] e t2 eq_refl).
      now rewrite !app_nil_r in *.
    + injection Hl as -> ->. exact (H t1 x l eq_refl).
  - specialize (H' l e t2 Hl). now rewrite app_assoc.
Qed.

Lemma each_event_from_cons I pre e t :
  I pre e -> each_event_from I (pre ++ [e]) t -> each_event_from I pre (e :: t).
Proof.
  intros He Ht. change (e :: t) with ([e] ++ t).
  apply each_event_from_app; [now apply each_event_from_one | exact Ht].
Qed.

Lemma each_event_from_In I pre t e :
  each_event_from I pre t -> In e t -> exists t1 t2, t = t1 ++ e :: t2 /\ I (pre ++ t1) e.
Proof.
  intros H Hin. apply in_split in Hin as (t1 & t2 & ->).
  exists t1, t2. split; [reflexivity | exact (H t1 e t2 eq_refl)].
Qed.

(** *** The rules, one per construct of the script *)

Lemma spec_ret {A} I pre (a : A) (Q : A -> list Event -> Prop) E :
  Q a pre -> spec I pre (ret a) Q E.
Proof.
  intros H w. simpl. split; [apply each_event_from_nil | now rewrite app_nil_r].
Qed.

Lemma spec_raise {A} I pre e (Q : A -> list Event -> Prop) (E : Exn -> list Event -> Prop) :
  E e pre -> spec I pre (raise e) Q E.
Proof.
  intros H w. simpl. split; [apply each_event_from_nil | now rewrite app_nil_r].
Qed.

Lemma spec_emit I pre e (Q : unit -> list Event -> Prop) E :
  I pre e -> Q tt (pre ++ [e]) -> spec I pre (emit e) Q E.
Proof.
  intros H HQ w. simpl. split; [now apply each_event_from_one | exact HQ].
Qed.

Lemma spec_call {A} I pre (op : World -> Result A * World) ev
    (Q : A -> list Event -> Prop) (E : Exn -> list Event -> Prop) :
  (forall r, I pre (ev r)) ->
  (forall a, Q a (pre ++ [ev (Ok a)])) ->
  (forall e, E e (pre ++ [ev (Raise e)])) ->
  spec I pre (call op ev) Q E.
Proof.
  intros HI HQ HE w. unfold call. destruct (op w) as [r w']. simpl.
  split; [apply each_event_from_one, HI |].
  destruct r; [apply HQ | apply HE].
Qed.

Lemma spec_bind {A B} I pre (m : M A) (f : A -> M B) Q E :
  spec I pre m (fun a h => spec I h (f a) Q E) E ->
  spec I pre (bind m f) Q E.
Proof.
  intros H w. specialize (H w) as [Hev Hres]. unfold bind.
  destruct (result (m w)) as [a | e] eqn:Hr; simpl.
  - specialize (Hres (world (m w))) as [Hev' Hres'].
    split; [now apply each_event_from_app |].
    now rewrite app_assoc.
  - split; assumption.
Qed.

Lemma spec_try {A} I pre (m handler : M A) Q E :
  spec I pre m Q (fun _ h => spec I h handler Q E) ->
  spec I pre (try_except m handler) Q E.
Proof.
  intros H w. specialize (H w) as [Hev Hres]. unfold try_except.
  destruct (result (m w)) as [a | e] eqn:Hr; simpl.
  - rewrite Hr. split; assumption.
  - specialize (Hres (world (m w))) as [Hev' Hres'].
    split; [now apply each_event_from_app |].
    now rewrite app_assoc.
Qed.

Lemma spec_weaken {A} I pre (m : M A) (Q Q' : A -> list Event -> Prop)
    (E E' : Exn -> list Event -> Prop) :
  spec I pre m Q E ->
  (forall a h, Q a h -> Q' a h) -> (forall e h, E e h -> E' e h) ->
  spec I pre m Q' E'.
Proof.
  intros H HQ HE w. specialize (H w) as [Hev Hres]. split; [assumption |].
  destruct (result (m w)); [now apply HQ | now apply HE].
Qed.


(** *** Equations of the monad *)

Lemma after_events_after {A} t t' (o : Outcome A) :
  after_events t (after_events t' o) = after_events (t ++ t') o.
Proof. unfold after_events. simpl. now rewrite app_assoc. Qed.

Lemma after_events_nil {A} (o : Outcome A) : after_events [] o = o.
Proof. now destruct o. Qed.

Lemma bind_call_ok {A B} op ev (f : A -> M B) w a w' :
  op w = (Ok a, w') -> bind (call op ev) f w = after_events [ev (Ok a)] (f a w').
Proof. intros H. unfold bind, call. now rewrite H. Qed.

Lemma bind_call_raise {A B} op ev (f : A -> M B) w e w' :
  op w = (Raise e, w') ->
  bind (call op ev) f w = {| result := Raise e; world := w'; trace := [ev (Raise e)] |}.
Proof. intros H. unfold bind, call. now rewrite H. Qed.

Lemma bind_emit {B} e (f : unit -> M B) w :
  bind (emit e) f w = after_events [e] (f tt w).
Proof. reflexivity. Qed.

Lemma bind_ret {A B} (a : A) (f : A -> M B) w : bind (ret a) f w = f a w.
Proof. unfold bind, ret. simpl. apply after_events_nil. Qed.

Lemma bind_raise {A B} e (f : A -> M B) w : bind (raise e) f w = raise e w.
Proof. reflexivity. Qed.

Lemma bind_assoc {A B C} (m : M A) (f : A -> M B) (g : B -> M C) w :
  bind (bind m f) g w = bind m (fun a => bind (f a) g) w.
Proof.
  unfold bind. destruct (result (m w)) as [a | e]; simpl; [| reflexivity].
  destruct (result (f a (world (m w)))) as [b | e]; simpl; [| reflexivity].
  now rewrite after_events_after.
Qed.

Lemma bind_try_call_raise {A B C} op ev (f : A -> M B) (h : M B) (k : B -> M C) w e w' :
  op w = (Raise e, w') ->
  bind (try_except (bind (call op ev) f) h) k w
  = after_events [ev (Raise e)] (bind h k w').
Proof.
  intros H. unfold bind, try_except, call. rewrite H. simpl.
  destruct (result (h w')) as [a | e']; simpl; [| reflexivity].
  now rewrite after_events_after.
Qed.

Lemma spec_mono {A} (I I' : list Event -> Event -> Prop) pre (m : M A) Q E :
  (forall h e, I h e -> I' h e) -> spec I pre m Q E -> spec I' pre m Q E.
Proof.
  intros HI H w. specialize (H w) as [Hev Hres]. split; [| exact Hres].
  intros t1 e t2 Heq. apply HI. exact (Hev t1 e t2 Heq).
Qed.

(** *** Membership in a history that grows at its end *)

Lemma in_hist_last (x : Event) l : In x (l ++ [x]).
Proof. apply in_or_app. right. left. reflexivity. Qed.

Lemma in_hist_init (x y : Event) l : In x l -> In x (l ++ [y]).
Proof. intros H. apply in_or_app. now left. Qed.

Lemma parsed_prelude config : In (GetConfigFromArgparser (Ok config)) (prelude config).
Proof. right. left. reflexivity. Qed.

(** *** The loop over the generated sequences *)

Lemma spec_print_outputs I (E : Exn -> list Event -> Prop) tokenizer outputs : forall pre,
  (forall t x r, Forall (fun e => is_output e = true) t ->
                 I (pre ++ t) (Decode tokenizer x true r)) ->
  (forall t args, Forall (fun e => is_output e = true) t -> I (pre ++ t) (Print args)) ->
  (forall t x e, Forall (fun e => is_output e = true) t ->
                 E e ((pre ++ t) ++ [Decode tokenizer x true (Raise e)])) ->
  spec I pre (print_outputs tokenizer outputs)
    (fun _ h => exists texts,
         List.length texts = List.length outputs /\
         h = pre ++ printed tokenizer outputs texts)
    E.
Proof.
  induction outputs as [|x rest IH]; intros pre HD HP HE; simpl.
  - apply spec_ret. exists []. split; [reflexivity |]. simpl. now rewrite app_nil_r.
  - apply spec_bind, spec_call.
    + intros r. specialize (HD [] x r (Forall_nil _)). now rewrite app_nil_r in HD.
    + intros text. apply spec_bind. unfold print. apply spec_emit.
      * apply HP. repeat constructor.
      * eapply spec_weaken.
        -- apply (IH ((pre ++ [Decode tokenizer x true (Ok text)]) ++ [Print [banner; text]])).
           ++ intros t y r Ht. rewrite <- !app_assoc. apply HD. simpl. repeat constructor. exact Ht.
           ++ intros t args Ht. rewrite <- !app_assoc. apply HP. simpl. repeat constructor. exact Ht.
           ++ intros t y e Ht.
              replace ((pre ++ [Decode tokenizer x true (Ok text)]) ++ [Print [banner; text]])
                with (pre ++ [Decode tokenizer x true (Ok text); Print [banner; text]])
                by now rewrite <- app_assoc.
              rewrite <- (app_assoc pre). apply HE. simpl. repeat constructor. exact Ht.
        -- intros [] h (texts & Hlen & ->). exists (text :: texts). split.
           ++ simpl. now rewrite Hlen.
           ++ unfold printed. simpl. now rewrite <- !app_assoc.
        -- trivial.
    + intros e. specialize (HE [] x e (Forall_nil _)). now rewrite app_nil_r in HE.
Qed.

Lemma spec_print_outputs_any I tokenizer outputs pre :
  (forall t x r, Forall (fun e => is_output e = true) t ->
                 I (pre ++ t) (Decode tokenizer x true r)) ->
  (forall t args, Forall (fun e => is_output e = true) t -> I (pre ++ t) (Print args)) ->
  spec I pre (print_outputs tokenizer outputs) (fun _ _ => True) (fun _ _ => True).
Proof.
  intros HD HP. eapply spec_weaken.
  - apply (spec_print_outputs I (fun _ _ => True)); trivial.
  - trivial.
  - trivial.
Qed.

Lemma printed_outputs tokenizer outputs texts :
  Forall (fun e => is_output e = true) (printed tokenizer outputs texts).
Proof.
  unfold printed. apply Forall_flat_map, Forall_forall. intros ot _.
  repeat constructor.
Qed.

(** *** From [run] to [main] *)

Lemma main_cases w :
  (exists e,
      result (main w) = Raise e /\
      trace (main w) = [SetSeed 42; GetConfigFromArgparser (Raise e)]) \/
  (exists config w',
      trace (main w) = prelude config ++ trace (run config w') /\
      result (main w) = result (run config w')).
Proof.
  unfold main, main_block, argparse_section, bind, transformers_set_seed, call. simpl.
  destruct (get_config_from_argparser (set_seed 42 w)) as [[config | e] w']; simpl.
  - right. exists config, w'. unfold prelude.
    destruct (verbose config); simpl;
      destruct (result (run config w')); simpl; auto.
  - left. exists e. auto.
Qed.

End Rules.

Create HintDb hist.

#[export] Hint Resolve in_hist_last in_hist_init parsed_prelude : hist.

(** Symbolic execution of a program of the script: one rule per construct,
    a case for each outcome of a call and each branch of a test. *)
Ltac head_of t := lazymatch t with ?f _ => head_of f | _ => t end.

Ltac wp_step :=
  lazymatch goal with
  | |- spec _ _ (bind _ _) _ _ => apply spec_bind
  | |- spec _ _ (call _ _) _ _ => apply spec_call; [intros ? | intros ? | intros ?]
  | |- spec _ _ (ret _) _ _ => apply spec_ret
  | |- spec _ _ (raise _) _ _ => apply spec_raise
  | |- spec _ _ (emit _) _ _ => apply spec_emit
  | |- spec _ _ (try_except _ _) _ _ => apply spec_try
  | |- spec _ _ (if ?b then _ else _) _ _ =>
      let H := fresh "Htest" in destruct b eqn:H; try (cbn in H; discriminate H)
  | |- spec _ _ (match ?x with _ => _ end) _ _ => destruct x eqn:?
  | |- spec _ _ (print_outputs _ _) _ _ => fail
  | |- spec _ _ (after_datasets _ _ _ _) _ _ => fail
  | |- spec _ _ (after_model _ _ _) _ _ => fail
  | |- spec _ _ ?m _ _ => let h := head_of m in unfold h
  end.

Ltac wp := repeat (cbv beta; wp_step; try exact Logic.I).

(** The same for a program that is one of the parts [wp] stops at. *)
Tactic Notation "wp_in" reference(part) := unfold part; wp.

Section Footprint.

Local Open Scope list_scope.

Context {O : Objects} {F : Framework}.

Lemma after_datasets_footprint config tokenizer model dataset_train h :
  spec run_event h (after_datasets config tokenizer model dataset_train)
       (fun _ _ => True) (fun _ _ => True).
Proof.
  wp_in after_datasets.
  all: try (split; reflexivity).
  all: apply spec_print_outputs_any; intros; split; reflexivity.
Qed.

Lemma after_model_footprint config tokenizer model h :
  spec run_event h (after_model config tokenizer model)
       (fun _ _ => True) (fun _ _ => True).
Proof.
  wp_in after_model.
  all: try (split; reflexivity).
  all: apply after_datasets_footprint.
Qed.

Lemma run_footprint config h :
  spec run_event h (run config) (fun _ _ => True) (fun _ _ => True).
Proof.
  wp_in run.
  all: try (split; reflexivity).
  all: apply after_model_footprint.
Qed.

End Footprint.

Section Lifting.

Local Open Scope list_scope.

Context {O : Objects} {F : Framework}.

Lemma prelude_events config e : In e (prelude config) -> is_prelude e = true.
Proof. intros [<- | [<- | [<- | []]]]; reflexivity. Qed.

Lemma each_event_from_prelude I t :
  (forall pre e, is_prelude e = true -> I pre e) ->
  (forall e, In e t -> is_prelude e = true) ->
  each_event_from I [] t.
Proof.
  intros HI Ht t1 e t2 ->. apply HI, Ht, in_elt.
Qed.

(** The configuration of a run is the one [run] is started with. *)
Lemma main_parsed w config :
  parsed (trace (main w)) config ->
  exists w',
    trace (main w) = prelude config ++ trace (run config w') /\
    result (main w) = result (run config w').
Proof.
  intros Hp. unfold parsed in Hp.
  destruct (main_cases w) as [(e & _ & Ht) | (c & w' & Ht & Hr)]; rewrite Ht in Hp.
  - destruct Hp as [H | [H | []]]; discriminate H.
  - assert (c = config) as ->; [| eauto].
    apply in_app_or in Hp as [Hp | Hp].
    + destruct Hp as [H | [H | [H | []]]]; try discriminate H. now injection H.
    + destruct (run_footprint c (prelude c) w') as [Hev _].
      destruct (each_event_from_In _ _ _ _ Hev Hp) as (t1 & t2 & _ & [Hf _]).
      discriminate Hf.
Qed.

(** A property of the events of [run config], shown from the prelude on,
    holds in every run whose command line gives [config]. *)
Lemma main_lift (J : ConfigTrain -> list Event -> Event -> Prop)
    (Q : ConfigTrain -> unit -> list Event -> Prop)
    (E : ConfigTrain -> Exn -> list Event -> Prop) :
  (forall config, each_event (J config) (prelude config)) ->
  (forall config, spec (J config) (prelude config) (run config) (Q config) (E config)) ->
  forall w config,
    parsed (trace (main w)) config ->
    each_event (J config) (trace (main w)) /\
    match result (main w) with
    | Ok a => Q config a (trace (main w))
    | Raise e => E config e (trace (main w))
    end.
Proof.
  intros Hpre Hrun w config Hp.
  destruct (main_parsed w config Hp) as (w' & Ht & Hr). rewrite Ht, Hr.
  destruct (Hrun config w') as [Hev Hres]. split; [| exact Hres].
  apply each_event_from_app; [apply Hpre | exact Hev].
Qed.

Lemma each_event_prelude I config :
  (forall pre e, is_prelude e = true -> I pre e) -> each_event I (prelude config).
Proof.
  intros HI. apply each_event_from_prelude; [exact HI | apply prelude_events].
Qed.

(** The same for a property that does not mention the configuration. *)
Lemma main_lift_all (I : list Event -> Event -> Prop) (Q : unit -> list Event -> Prop) :
  (forall pre e, is_prelude e = true -> I pre e) ->
  (forall config, spec I (prelude config) (run config) Q (fun _ _ => True)) ->
  forall w,
    each_event I (trace (main w)) /\
    (forall a, result (main w) = Ok a -> Q a (trace (main w))).
Proof.
  intros Hpre Hrun w.
  destruct (main_cases w) as [(e & Hr & Ht) | (c & w' & Ht & Hr)]; rewrite Ht, Hr.
  - split; [| discriminate].
    apply each_event_from_prelude; [apply Hpre |].
    intros x [<- | [<- | []]]; reflexivity.
  - destruct (Hrun c w') as [Hev Hres]. split.
    + apply each_event_from_app; [| exact Hev].
      apply each_event_from_prelude; [apply Hpre | apply prelude_events].
    + intros a Ha. rewrite Ha in Hres. exact Hres.
Qed.

End Lifting.

#[export] Hint Constructors dataset_from_dispatch : hist.

(** Rewrites the tests of the script that a path has decided. *)
Ltac decide_tests :=
  repeat match goal with
         | H : peft_recipe ?c = _ |- context [peft_recipe ?c] => rewrite H
         | H : quantization_recipe ?c = _ |- context [quantization_recipe ?c] => rewrite H
         | H : ?b = true |- context [if ?b then _ else _] => rewrite H
         | H : ?b = false |- context [if ?b then _ else _] => rewrite H
         end.

Ltac in_loop := intros; first [exact Logic.I | apply in_or_app; left; eauto 60 with hist].

(** ** The generation check *)

Section SanityCheck.

Local Open Scope list_scope.

Context {O : Objects} {F : Framework}.

Ltac sanity := unfold sanity_check_event; first [exact Logic.I | solve [eauto 60 with hist]].

Lemma after_datasets_sanity config tokenizer model dataset_train h :
  spec sanity_check_event h (after_datasets config tokenizer model dataset_train)
       (fun _ => sanity_check_printed) (fun _ _ => True).
Proof.
  wp_in after_datasets.
  all: try sanity.
  all: eapply spec_weaken;
    [apply (spec_print_outputs _ (fun _ _ => True)); intros; exact Logic.I | | trivial].
  all: intros [] h' (texts & Hlen & ->); unfold sanity_check_printed;
    do 6 eexists; (split; [exact Hlen |]); rewrite <- app_assoc; reflexivity.
Qed.

Lemma after_model_sanity config tokenizer model h :
  spec sanity_check_event h (after_model config tokenizer model)
       (fun _ => sanity_check_printed) (fun _ _ => True).
Proof.
  wp_in after_model.
  all: try sanity.
  all: apply after_datasets_sanity.
Qed.

Lemma run_sanity config h :
  spec sanity_check_event h (run config) (fun _ => sanity_check_printed) (fun _ _ => True).
Proof.
  wp_in run.
  all: try sanity.
  all: apply after_model_sanity.
Qed.

End SanityCheck.

(** ** The system template *)

Section SystemTemplate.

Local Open Scope list_scope.

Context {O : Objects} {F : Framework}.





End SystemTemplate.

(** ** The order of the pipeline *)

Section PipelineOrder.

Local Open Scope list_scope.

Context {O : Objects} {F : Framework}.

Ltac pipeline :=
  unfold pipeline_order_event, is_dispatch;
  repeat split; intros;
  try congruence;
  try match goal with H : Some _ = Some _ |- _ => injection H as <- end;
  first [exact Logic.I | solve [eauto 60 with hist]].

Lemma after_datasets_pipeline config tokenizer model dataset_train h :
  (exists recipe name q p m, In (GetModel recipe name q p (Ok m)) h) ->
  spec pipeline_order_event h (after_datasets config tokenizer model dataset_train)
       (fun _ _ => True) (fun _ _ => True).
Proof.
  intros (recipe & name & q & p & m & Hm). wp_in after_datasets.
  all: try pipeline.
  all: apply spec_print_outputs_any; intros; (split; [discriminate | exact Logic.I]).
Qed.

Lemma after_model_pipeline config tokenizer model h :
  (exists c, In (GetConfigFromArgparser (Ok c)) h) ->
  (exists recipe name q p m, In (GetModel recipe name q p (Ok m)) h) ->
  spec pipeline_order_event h (after_model config tokenizer model)
       (fun _ _ => True) (fun _ _ => True).
Proof.
  intros (c & Hc) (recipe & name & q & p & m & Hm). wp_in after_model.
  all: try pipeline.
  all: apply after_datasets_pipeline; eauto 60 with hist.
Qed.

Lemma run_pipeline config :
  spec pipeline_order_event (prelude config) (run config)
       (fun _ _ => True) (fun _ _ => True).
Proof.
  wp_in run.
  all: try pipeline.
  all: apply after_model_pipeline; eauto 60 with hist.
Qed.

End PipelineOrder.

(** ** The dispatchers *)

Section Dispatch.

Local Open Scope list_scope.

Context {O : Objects} {F : Framework}.

Lemma dataset_from_dispatch_snoc config h e d :
  dataset_from_dispatch config h d -> dataset_from_dispatch config (h ++ [e]) d.
Proof.
  induction 1; eauto using dataset_from_dispatch, in_hist_init.
Qed.

#[local] Hint Resolve dataset_from_dispatch_snoc : hist.

Ltac dispatch :=
  unfold dispatch_event, tokenizer_from_dispatch, model_from_dispatch,
    quantization_from_dispatch, peft_from_dispatch in *;
  first [exact Logic.I | solve [eauto 60 with hist]].

Lemma after_datasets_dispatch config tokenizer model dataset_train h :
  tokenizer_from_dispatch config h tokenizer ->
  model_from_dispatch config h model ->
  dataset_from_dispatch config h dataset_train ->
  spec (dispatch_event config) h (after_datasets config tokenizer model dataset_train)
       (fun _ _ => True) (fun _ _ => True).
Proof.
  intros Ht (q & p & Hm) Hd. wp_in after_datasets.
  all: try dispatch.
  all: apply spec_print_outputs_any;
    unfold dispatch_event, tokenizer_from_dispatch in *; in_loop.
Qed.

Lemma after_model_dispatch config tokenizer model h :
  tokenizer_from_dispatch config h tokenizer ->
  model_from_dispatch config h model ->
  spec (dispatch_event config) h (after_model config tokenizer model)
       (fun _ _ => True) (fun _ _ => True).
Proof.
  intros Ht (q & p & Hm). wp_in after_model.
  all: try dispatch.
  all: apply after_datasets_dispatch; dispatch.
Qed.

Lemma run_dispatch config h :
  spec (dispatch_event config) h (run config) (fun _ _ => True) (fun _ _ => True).
Proof.
  wp_in run.
  all: try dispatch.
  all: apply after_model_dispatch; dispatch.
Qed.

End Dispatch.

(** ** The initial text of prompt tuning *)

Section InitText.

Local Open Scope list_scope.

Context {O : Objects} {F : Framework}.





End InitText.

(** ** The validation split *)

Section Validation.

Local Open Scope list_scope.

Context {O : Objects} {F : Framework}.

Lemma outputs_not_failed t :
  Forall (fun e => is_output e = true) t -> existsb validation_failed t = false.
Proof.
  induction 1 as [|e t He _ IH]; [reflexivity |].
  simpl. rewrite IH. destruct e; try discriminate He; reflexivity.
Qed.

Lemma printed_not_failed tokenizer outputs texts :
  existsb validation_failed (printed tokenizer outputs texts) = false.
Proof. apply outputs_not_failed, printed_outputs. Qed.

Ltac no_fallback :=
  unfold no_fallback_event, no_fallback_returns, no_fallback_raises in *;
  intros;
  first [ congruence
        | rewrite ?existsb_app in *;
          repeat match goal with
                 | H : ?P -> existsb _ _ = false, H' : ?P |- _ => rewrite (H H') in *
                 | H : Forall _ ?t |- _ => rewrite (outputs_not_failed t H) in *
                 end;
          rewrite ?printed_not_failed in *;
          cbn in *; congruence ].

Lemma after_datasets_no_fallback config tokenizer model dataset_train h :
  no_fallback_returns config h ->
  spec (no_fallback_event config) h (after_datasets config tokenizer model dataset_train)
       (fun _ => no_fallback_returns config) (no_fallback_raises config).
Proof.
  intros Hh. wp_in after_datasets.
  all: try no_fallback.
  all: eapply spec_weaken;
    [apply (spec_print_outputs _ (no_fallback_raises config)) | | trivial];
    try no_fallback.
  all: intros [] h' (texts & _ & ->); no_fallback.
Qed.

Lemma after_model_no_fallback config tokenizer model h :
  no_fallback_returns config h ->
  spec (no_fallback_event config) h (after_model config tokenizer model)
       (fun _ => no_fallback_returns config) (no_fallback_raises config).
Proof.
  intros Hh. wp_in after_model.
  all: try no_fallback.
  all: apply after_datasets_no_fallback; no_fallback.
Qed.

Lemma run_no_fallback config :
  spec (no_fallback_event config) (prelude config) (run config)
       (fun _ => no_fallback_returns config) (no_fallback_raises config).
Proof.
  wp_in run.
  all: try no_fallback.
  all: apply after_model_no_fallback; no_fallback.
Qed.

End Validation.

(** * The claims *)

Section Claims.

Local Open Scope list_scope.

Context {O : Objects} {F : Framework}.

Lemma each_event_In I (t : list Event) e :
  each_event I t -> In e t -> exists pre post, t = pre ++ e :: post /\ I pre e.
Proof. intros H Hin. exact (each_event_from_In I [] t e H Hin). Qed.

(** No run performs a training event. *)
Lemma main_never_trains w e : In e (trace (main w)) -> is_train e = false.
Proof.
  intros Hin.
  destruct (main_lift_all (fun _ e => is_train e = false) (fun _ _ => True)) with (w := w)
    as [Hev _].
  - intros pre x Hx. destruct x; try discriminate Hx; reflexivity.
  - intros config. eapply spec_mono; [| apply run_footprint]. intros h x [_ Hx]. exact Hx.
  - destruct (each_event_In _ _ _ Hev Hin) as (_ & _ & _ & H). exact H.
Qed.

(** C2: every [generate] call of a run is made on the fixed test prompt,
    encoded and moved to the device of the model, with the generation
    configuration of the script (at most 100 new tokens, 4 returned
    sequences, sampling with temperature 0.6 and top_p 0.9); a run that
    completes ends with that call followed, for each generated sequence in
    turn, by its decoding with [skip_special_tokens=True] and the printing of
    the decoded text. *)
Theorem generation_sanity_check w :
  each_event sanity_check_event (trace (main w)) /\
  (result (main w) = Ok tt -> sanity_check_printed (trace (main w))) /\
  (forall t,
      max_new_tokens (generation_config t) = 100%Z /\
      num_return_sequences (generation_config t) = 4%Z /\
      do_sample (generation_config t) = true /\
      temperature (generation_config t) = 0.6%Q /\
      top_p (generation_config t) = 0.9%Q).
Proof.
  destruct (main_lift_all sanity_check_event (fun _ => sanity_check_printed)) with (w := w)
    as [Hev Hres].
  - intros pre e He. destruct e; try discriminate He; exact Logic.I.
  - intros config. apply run_sanity.
  - split; [exact Hev |]. split; [apply Hres |]. intros t. repeat split.
Qed.


(** C4: in every run, a recipe is dispatched only after the argument parser
    has returned the configuration; the model is built only after the
    tokenizer, and the quantization and adapter configurations it is given,
    have been obtained; generation happens only after the model was built. *)
Theorem pipeline_order w : each_event pipeline_order_event (trace (main w)).
Proof.
  destruct (main_lift_all pipeline_order_event (fun _ _ => True)) with (w := w)
    as [Hev _]; trivial.
  - intros pre e He. destruct e; try discriminate He; (split; [discriminate | exact Logic.I]).
  - intros config. apply run_pipeline.
Qed.

(** The invariant behind the two claims on the dispatchers. *)
Lemma dispatch_invariant w config :
  parsed (trace (main w)) config ->
  each_event (dispatch_event config) (trace (main w)).
Proof.
  intros Hp.
  destruct (main_lift dispatch_event (fun _ _ _ => True) (fun _ _ _ => True))
    with (w := w) (config := config) as [Hev _]; trivial.
  - intros c. apply each_event_prelude.
    intros pre e He. destruct e; try discriminate He; exact Logic.I.
  - intros c. apply run_dispatch.
Qed.

(** C5: in a run with configuration [config], every dispatcher is applied
    to the configured recipe and name; the tokenizer used by any later call
    is the one [TokenizerDispatcher] returned, the model is the one
    [ModelDispatcher] returned for the quantization and adapter
    configurations the other dispatchers returned (with the proxy added when
    system tuning applies), and every data set is one [DatasetDispatcher]
    returned, or a split or a selection of it. *)
Theorem dispatchers_make_the_objects w config :
  parsed (trace (main w)) config ->
  each_event (dispatch_event config) (trace (main w)).
Proof. apply dispatch_invariant. Qed.

(** C6: when the configuration has no adapter recipe, [PeftDispatcher] is
    never called and the model is built with the adapter configuration
    [None]; likewise for the quantization recipe. *)
Theorem absent_recipe_gives_none w config :
  parsed (trace (main w)) config ->
  (peft_recipe config = None ->
   forall e, In e (trace (main w)) ->
     match e with
     | GetPeftConfig _ _ => False
     | GetModel _ _ _ p _ => p = None
     | _ => True
     end) /\
  (quantization_recipe config = None ->
   forall e, In e (trace (main w)) ->
     match e with
     | GetQuantizationConfig _ _ => False
     | GetModel _ _ q _ _ => q = None
     | _ => True
     end).
Proof.
  intros Hp. pose proof (dispatch_invariant w config Hp) as Hev.
  split; intros Hnone e Hin;
    destruct (each_event_In _ _ _ Hev Hin) as (pre & post & _ & He);
    destruct e; try exact Logic.I; simpl in He.
  - congruence.
  - destruct He as (_ & _ & _ & Hpeft). destruct p as [c |]; [| reflexivity].
    destruct Hpeft as (recipe0 & c0 & Hr & _). congruence.
  - congruence.
  - destruct He as (_ & _ & Hq & _). destruct q as [c |]; [| reflexivity].
    destruct Hq as (recipe0 & Hr & _). congruence.
Qed.


End Claims.

Section MoreClaims.

Local Open Scope list_scope.

Context {O : Objects} {F : Framework}.

Lemma no_fallback_invariant w config :
  parsed (trace (main w)) config ->
  each_event (no_fallback_event config) (trace (main w)) /\
  match result (main w) with
  | Ok _ => no_fallback_returns config (trace (main w))
  | Raise e => no_fallback_raises config e (trace (main w))
  end.
Proof.
  apply (main_lift no_fallback_event (fun c _ => no_fallback_returns c) no_fallback_raises).
  - intros c. unfold each_event, prelude.
    repeat (apply each_event_from_cons; [intros _; reflexivity |]).
    apply each_event_from_nil.
  - intros c. apply run_no_fallback.
Qed.

Lemma failed_in_history pre x post :
  validation_failed x = true -> existsb validation_failed (pre ++ x :: post) = true.
Proof.
  intros Hx. apply existsb_exists. exists x. split; [apply in_elt | exact Hx].
Qed.

(** The fallback of lines 124-131, main part. *)
Lemma no_size_aborts w config pre x post :
  parsed (trace (main w)) config ->
  validation_split_size config = None ->
  trace (main w) = pre ++ x :: post ->
  validation_failed x = true ->
  post = [] /\ result (main w) = Raise (AssertionError no_validation_message).
Proof.
  intros Hp Hnone Ht Hx.
  destruct (no_fallback_invariant w config Hp) as [Hev Hres]. split.
  - destruct post as [|y post]; [reflexivity |]. exfalso.
    assert (Hsplit : trace (main w) = (pre ++ [x]) ++ y :: post)
      by (rewrite Ht, <- app_assoc; reflexivity).
    specialize (Hev _ _ _ Hsplit Hnone). simpl in Hev.
    rewrite (failed_in_history pre x [] Hx) in Hev. discriminate Hev.
  - pose proof (failed_in_history pre x post Hx) as Hfailed. rewrite <- Ht in Hfailed.
    destruct (result (main w)) as [[] | e].
    + specialize (Hres Hnone). congruence.
    + now rewrite (Hres Hnone Hfailed).
Qed.

Ltac script_step :=
  cbv beta iota;
  first [ rewrite bind_assoc | rewrite bind_emit | rewrite bind_ret | rewrite bind_raise
        | rewrite after_events_after ].

Lemma fallback_equation config tokenizer w support train w1 e w2 :
  get_support_and_tuning_dataset (dataset_recipe config) (dataset_name config)
    (train_args config tokenizer) w = (Ok (support, train), w1) ->
  get_support_and_tuning_dataset (dataset_recipe config) (dataset_name config)
    (validation_args config tokenizer support) w1 = (Raise e, w2) ->
  fallback_outcome config tokenizer support train e w2 (dataset_section config tokenizer w).
Proof.
  intros Htrain Hval. unfold fallback_outcome, dataset_section.
  rewrite (bind_call_ok _ _ _ _ _ _ Htrain). cbv beta iota.
  rewrite (bind_try_call_raise _ _ _ _ _ _ _ _ Hval).
  unfold split_fallback, logger_info, logger_warning.
  destruct (validation_split_size config) as [size |]; [| reflexivity].
  destruct (dynamic_examples config);
    destruct (train_test_split train size w2) as [[[new_train new_val] | e'] w3] eqn:Hsplit;
    repeat script_step;
    first [ rewrite (bind_call_ok _ _ _ _ _ _ Hsplit)
          | rewrite (bind_call_raise _ _ _ _ _ _ Hsplit) ];
    repeat script_step; reflexivity.
Qed.

Lemma subset_and_log_keeps config support train val w support' train' val' :
  result (subset_and_log config support train val w) = Ok (support', train', val') ->
  support' = support /\ val' = val.
Proof.
  intros Hr.
  assert (H : spec (fun _ _ => True) [] (subset_and_log config support train val)
                (fun r _ => fst (fst r) = support /\ snd r = val) (fun _ _ => True)).
  { wp_in subset_and_log. all: split; reflexivity. }
  destruct (H w) as [_ Hres]. rewrite Hr in Hres. exact Hres.
Qed.

(** C7: when the call for the validation split raises, whatever the
    exception: without a [validation_split_size] nothing more happens and the
    run ends with the assertion error of line 126; with one, the training set
    that the dispatcher returned is split with that test size (after the log
    messages), a failure of the split ends the section, and otherwise the
    section goes on with the two parts as training and validation sets and
    with the support set of the first call; the support set and the
    validation part are what the section returns. *)
Theorem validation_fallback :
  (forall w config pre x post,
      parsed (trace (main w)) config ->
      validation_split_size config = None ->
      trace (main w) = pre ++ x :: post ->
      validation_failed x = true ->
      post = [] /\ result (main w) = Raise (AssertionError no_validation_message)) /\
  (forall config tokenizer w support train w1 e w2,
      get_support_and_tuning_dataset (dataset_recipe config) (dataset_name config)
        (train_args config tokenizer) w = (Ok (support, train), w1) ->
      get_support_and_tuning_dataset (dataset_recipe config) (dataset_name config)
        (validation_args config tokenizer support) w1 = (Raise e, w2) ->
      fallback_outcome config tokenizer support train e w2
        (dataset_section config tokenizer w)) /\
  (forall config support train val w support' train' val',
      result (subset_and_log config support train val w) = Ok (support', train', val') ->
      support' = support /\ val' = val).
Proof.
  split; [exact no_size_aborts |].
  split; [exact fallback_equation | exact subset_and_log_keeps].
Qed.

End MoreClaims.

(** * The claims on the small framework *)

(** C1: the run of the script on [Toy.plain_config] (no adapter, no
    quantization, a validation split available) completes and reaches the
    generation check, and no training call occurs in it: the script never
    calls the fine-tuner it imports. *)
Theorem plain_run_does_not_train :
  result (Toy.plain_run 7%Z) = Ok tt /\
  existsb is_generate (trace (Toy.plain_run 7%Z)) = true /\
  existsb is_train (trace (Toy.plain_run 7%Z)) = false.
Proof.
  split; [| split]; vm_compute; reflexivity.
Qed.

Lemma plain_run_parsed : parsed (trace (Toy.plain_run 7%Z)) Toy.plain_config.
Proof. vm_compute. right. left. reflexivity. Defined.

Lemma prompt_run_parsed : parsed (trace (Toy.prompt_run 7%Z)) Toy.prompt_config.
Proof. vm_compute. right. left. reflexivity. Defined.

Lemma no_validation_parsed :
  parsed (trace (Toy.plain_run_no_validation 7%Z)) Toy.plain_config.
Proof. vm_compute. right. left. reflexivity. Defined.

Lemma generation_sanity_check_witness :
  result (Toy.plain_run 7%Z) = Ok tt /\ sanity_check_printed (trace (Toy.plain_run 7%Z)).
Proof.
  split; [vm_compute; reflexivity |].
  apply (proj1 (proj2 (@generation_sanity_check Toy.objects
                         (Toy.framework (Ok Toy.plain_config) true) 7%Z))).
  vm_compute. reflexivity.
Defined.


Lemma dispatchers_make_the_objects_witness :
  parsed (trace (Toy.prompt_run 7%Z)) Toy.prompt_config /\
  each_event (dispatch_event Toy.prompt_config) (trace (Toy.prompt_run 7%Z)).
Proof.
  split; [exact prompt_run_parsed |].
  exact (@dispatchers_make_the_objects Toy.objects
           (Toy.framework (Ok Toy.prompt_config) false) 7%Z Toy.prompt_config
           prompt_run_parsed).
Defined.

Lemma absent_recipe_gives_none_witness :
  parsed (trace (Toy.plain_run 7%Z)) Toy.plain_config /\
  @peft_recipe Toy.objects Toy.plain_config = None /\
  forall e, In e (trace (Toy.plain_run 7%Z)) ->
    match e with
    | GetPeftConfig _ _ => False
    | GetModel _ _ _ p _ => p = None
    | _ => True
    end.
Proof.
  split; [exact plain_run_parsed |]. split; [reflexivity |].
  apply (proj1 (@absent_recipe_gives_none Toy.objects
                  (Toy.framework (Ok Toy.plain_config) true) 7%Z Toy.plain_config
                  plain_run_parsed)).
  reflexivity.
Defined.

Lemma validation_fallback_witness :
  result (Toy.plain_run_no_validation 7%Z)
  = Raise (AssertionError no_validation_message) /\
  @fallback_outcome Toy.objects (Toy.framework (Ok Toy.prompt_config) false)
    Toy.prompt_config "llama" ["shot"] ["p1"; "p2"; "p3"; "p4"]
    (LibraryException "unknown split") 42%Z
    (@dataset_section Toy.objects (Toy.framework (Ok Toy.prompt_config) false)
       Toy.prompt_config "llama" 42%Z).
Proof.
  pose (t := trace (Toy.plain_run_no_validation 7%Z)).
  split.
  - refine (proj2 (proj1 (@validation_fallback Toy.objects
                            (Toy.framework (Ok Toy.plain_config) false))
                     7%Z Toy.plain_config (firstn 9 t) (nth 9 t (SetSeed 0)) (skipn 10 t)
                     no_validation_parsed _ _ _)).
    + reflexivity.
    + vm_compute. reflexivity.
    + vm_compute. reflexivity.
  - apply (proj1 (proj2 (@validation_fallback Toy.objects
                           (Toy.framework (Ok Toy.prompt_config) false)))
             Toy.prompt_config "llama" 42%Z ["shot"] ["p1"; "p2"; "p3"; "p4"] 42%Z).
    + reflexivity.
    + reflexivity.
Defined.


(** The text that the prompt-tuning run of the small framework assigns:
    the two first words of the lower-cased training texts. *)
Example prompt_run_init_text :
  In (@GetModel Toy.objects "llama" "llama" (Some "int4")
        (Some (@Build_PeftConfig Toy.objects 2 (Some "the cat") tt))
        (Ok ["llama"]))
     (trace (Toy.prompt_run 7%Z)).
Proof. vm_compute. do 13 right. left. reflexivity. Qed.

(** * More on the code *)

(** ** The words of line 70 *)

Lemma split_not_nil sep s : PyStr.split sep s <> [].
Proof.
  destruct s as [|c rest]; simpl; [discriminate |].
  destruct (Ascii.eqb c sep); [discriminate |].
  destruct (PyStr.split sep rest); discriminate.
Qed.

Lemma join_cons_char sep c w ws :
  PyStr.join sep (String c w :: ws) = String c (PyStr.join sep (w :: ws)).
Proof. destruct ws; reflexivity. Qed.

(** Joining the pieces of a split with the separator gives the string back. *)
Lemma join_split s : PyStr.join " " (PyStr.split PyStr.space s) = s.
Proof.
  induction s as [|c rest IH]; [reflexivity |].
  simpl. destruct (Ascii.eqb_spec c PyStr.space) as [-> | Hc].
  - pose proof (split_not_nil PyStr.space rest) as Hne.
    destruct (PyStr.split PyStr.space rest) as [|w ws] eqn:Hs; [contradiction |].
    change (PyStr.join " " ("" :: w :: ws)) with (" " ++ PyStr.join " " (w :: ws)).
    rewrite IH. reflexivity.
  - pose proof (split_not_nil PyStr.space rest) as Hne.
    destruct (PyStr.split PyStr.space rest) as [|w ws] eqn:Hs; [contradiction |].
    rewrite join_cons_char, IH. reflexivity.
Qed.

Lemma split_length sep s :
  List.length (PyStr.split sep s) = S (count_char sep s).
Proof.
  induction s as [|c rest IH]; [reflexivity |].
  simpl. destruct (Ascii.eqb c sep); simpl; [now rewrite IH |].
  pose proof (split_not_nil sep rest) as Hne.
  destruct (PyStr.split sep rest) as [|w ws]; [contradiction |]. exact IH.
Qed.

(** No piece of a split holds the separator. *)
Lemma split_pieces sep s : Forall (fun w => count_char sep w = 0) (PyStr.split sep s).
Proof.
  induction s as [|c rest IH]; simpl; [repeat constructor |].
  destruct (Ascii.eqb c sep) eqn:Hc; [constructor; [reflexivity | exact IH] |].
  destruct (PyStr.split sep rest) as [|w ws]; simpl.
  - repeat constructor. simpl. now rewrite Hc.
  - inversion IH as [|? ? Hw Hws]; subst. constructor; [| exact Hws].
    simpl. now rewrite Hc.
Qed.

Lemma split_piece sep w : count_char sep w = 0 -> PyStr.split sep w = [w].
Proof.
  induction w as [|c rest IH]; simpl; [reflexivity |].
  destruct (Ascii.eqb c sep); [discriminate |].
  intros Hrest. now rewrite (IH Hrest).
Qed.

Lemma split_piece_app sep w s :
  count_char sep w = 0 ->
  PyStr.split sep (w ++ String sep s) = w :: PyStr.split sep s.
Proof.
  induction w as [|c rest IH]; simpl.
  - now rewrite Ascii.eqb_refl.
  - destruct (Ascii.eqb c sep); [discriminate |].
    intros Hrest. now rewrite (IH Hrest).
Qed.

(** Splitting what was joined from pieces without a space gives the pieces
    back; the empty list is the one exception, since it joins to the same
    text as the list of one empty piece. *)
Lemma split_join ws :
  ws <> [] -> Forall (fun w => count_char PyStr.space w = 0) ws ->
  PyStr.split PyStr.space (PyStr.join " " ws) = ws.
Proof.
  induction ws as [|w ws IH]; [contradiction |].
  intros _ Hall. inversion Hall as [|? ? Hw Hws]; subst.
  destruct ws as [|w' ws'].
  - now apply split_piece.
  - change (PyStr.join " " (w :: w' :: ws'))
      with (w ++ String PyStr.space (PyStr.join " " (w' :: ws'))).
    rewrite (split_piece_app _ _ _ Hw), IH; [reflexivity | discriminate | exact Hws].
Qed.

Section Words.

Context {O : Objects}.

(** X1: the words that line 70 hands to [most_common_words], joined with
    single spaces, give back the lower-cased, space-joined texts. *)
Theorem words_of_join texts :
  PyStr.join " " (words_of texts) = str_lower (PyStr.join " " texts).
Proof. unfold words_of. apply join_split. Qed.

(** X2: no word of line 70 contains a space, and the words are the only
    list with that property, the empty list apart, that joins with single
    spaces to the lower-cased, space-joined texts. *)
Theorem words_of_spaces texts ws :
  Forall (fun w => count_char PyStr.space w = 0) (words_of texts) /\
  (ws <> [] ->
   Forall (fun w => count_char PyStr.space w = 0) ws ->
   PyStr.join " " ws = str_lower (PyStr.join " " texts) ->
   ws = words_of texts).
Proof.
  unfold words_of. split; [apply split_pieces |].
  intros Hne Hall <-. symmetry. now apply split_join.
Qed.

(** X3: there is one word more than there are spaces in the lower-cased,
    space-joined texts, so the list of words is never empty: two spaces in
    a row, or a space at an end, give an empty word. *)
Theorem words_of_length texts :
  List.length (words_of texts)
  = S (count_char PyStr.space (str_lower (PyStr.join " " texts))).
Proof. unfold words_of. apply split_length. Qed.

End Words.

Example words_of_empty_column : @words_of Toy.objects [] = [""].
Proof. reflexivity. Qed.

Example words_of_double_space :
  @words_of Toy.objects ["A  b"; " C"] = ["a"; ""; "b"; ""; "c"].
Proof. reflexivity. Qed.

Lemma words_of_spaces_witness :
  ["the"; "cat"; "sat"] <> [] /\
  Forall (fun w => count_char PyStr.space w = 0) ["the"; "cat"; "sat"] /\
  PyStr.join " " ["the"; "cat"; "sat"] = Toy.lower_text (PyStr.join " " ["The Cat"; "sat"]) /\
  ["the"; "cat"; "sat"] = @words_of Toy.objects ["The Cat"; "sat"].
Proof.
  assert (Hne : ["the"; "cat"; "sat"] <> []) by discriminate.
  assert (Hall : Forall (fun w => count_char PyStr.space w = 0) ["the"; "cat"; "sat"])
    by (repeat constructor).
  assert (Hjoin : PyStr.join " " ["the"; "cat"; "sat"]
                  = Toy.lower_text (PyStr.join " " ["The Cat"; "sat"])) by reflexivity.
  split; [exact Hne |]. split; [exact Hall |]. split; [exact Hjoin |].
  exact (proj2 (@words_of_spaces Toy.objects ["The Cat"; "sat"] ["the"; "cat"; "sat"])
           Hne Hall Hjoin).
Defined.

(** ** How a run fails *)

Section Propagation.

Local Open Scope list_scope.

Context {O : Objects} {F : Framework}.

Ltac last_event :=
  unfold propagation_raises, failure_cause;
  do 2 eexists; (split; [reflexivity |]);
  first [ left; reflexivity
        | right; left; split; reflexivity
        | right; right; eexists; split; reflexivity ].

Ltac propagation :=
  unfold propagation_event, propagation_returns in *; intros;
  first [ congruence
        | rewrite ?existsb_app;
          match goal with H : existsb uncaught _ = false |- _ => rewrite H end;
          reflexivity
        | last_event ].

Lemma print_outputs_propagation tokenizer outputs : forall h,
  existsb uncaught h = false ->
  spec propagation_event h (print_outputs tokenizer outputs)
       (fun _ => propagation_returns) propagation_raises.
Proof.
  induction outputs as [|x rest IH]; intros h Hh; simpl.
  - apply spec_ret. exact Hh.
  - apply spec_bind, spec_call; [intros r; exact Hh | | intros e; last_event].
    intros text. apply spec_bind. unfold print. apply spec_emit.
    + propagation.
    + apply IH. propagation.
Qed.

Lemma after_datasets_propagation config tokenizer model dataset_train h :
  existsb uncaught h = false ->
  spec propagation_event h (after_datasets config tokenizer model dataset_train)
       (fun _ => propagation_returns) propagation_raises.
Proof.
  intros Hh. wp_in after_datasets.
  all: try propagation.
  all: apply print_outputs_propagation; propagation.
Qed.

Lemma after_model_propagation config tokenizer model h :
  existsb uncaught h = false ->
  spec propagation_event h (after_model config tokenizer model)
       (fun _ => propagation_returns) propagation_raises.
Proof.
  intros Hh. wp_in after_model.
  all: try propagation.
  all: apply after_datasets_propagation; propagation.
Qed.

Lemma run_propagation config :
  spec propagation_event (prelude config) (run config)
       (fun _ => propagation_returns) propagation_raises.
Proof.
  wp_in run.
  all: try (unfold propagation_event; reflexivity).
  all: try last_event.
  all: try congruence.
  all: apply after_model_propagation; reflexivity.
Qed.

(** X4: in every run no event follows a call that raised, except the call for
    the validation split, which the [try] of lines 115-123 covers.  A run
    that returns had no other failed call; a run that raises ends on the
    event that explains the exception. *)
Theorem exceptions_propagate w :
  each_event propagation_event (trace (main w)) /\
  match result (main w) with
  | Ok _ => existsb uncaught (trace (main w)) = false
  | Raise e => exists pre x, trace (main w) = pre ++ [x] /\ failure_cause x e
  end.
Proof.
  destruct (main_cases w) as [(e & Hr & Ht) | (config & w' & Ht & Hr)]; rewrite Ht, Hr.
  - split.
    + unfold each_event.
      repeat (apply each_event_from_cons; [reflexivity |]). apply each_event_from_nil.
    + exists [SetSeed 42], (GetConfigFromArgparser (Raise e)).
      split; [reflexivity | left; reflexivity].
  - destruct (run_propagation config w') as [Hev Hres]. split.
    + apply each_event_from_app; [| exact Hev]. unfold prelude.
      repeat (apply each_event_from_cons; [reflexivity |]). apply each_event_from_nil.
    + destruct (result (run config w')); exact Hres.
Qed.

End Propagation.

(** ** The first prompts *)

Section FirstPrompts.

Local Open Scope list_scope.

Context {O : Objects} {F : Framework}.

Lemma latest_snoc {A} (f : Event -> option A) h e :
  latest f (h ++ [e]) = match f e with Some a => Some a | None => latest f h end.
Proof. unfold latest. now rewrite fold_left_app. Qed.

Lemma first_prompts_logged_app h t d :
  first_prompts_logged h d -> first_prompts_logged (h ++ t) d.
Proof.
  intros (h0 & x & l & d' & y & l' & h' & -> & Htrain & Hval).
  exists h0, x, l, d', y, l', (h' ++ t). split; [| split; assumption].
  now rewrite <- !app_assoc.
Qed.

(** The four events of lines 136-137 at the end of a history. *)
Lemma first_prompts_logged_now h d x l d' y l' :
  latest train_of h = Some d -> latest val_of h = Some d' ->
  first_prompts_logged
    ((((h ++ [GetItem d "text" (Ok (x :: l))])
         ++ [Log DEBUG (first_train_message ++ x)%string])
        ++ [GetItem d' "text" (Ok (y :: l'))])
       ++ [Log DEBUG (first_val_message ++ y)%string]) d.
Proof.
  intros Htrain Hval. exists h, x, l, d', y, l', []. split; [| split; assumption].
  now rewrite <- !app_assoc.
Qed.

Ltac logged :=
  unfold first_prompts_event; intros;
  first [ discriminate
        | eexists; split; [repeat apply first_prompts_logged_app; eassumption |];
          first [exact Logic.I | reflexivity] ].

Lemma after_datasets_first_prompts config tokenizer model dataset_train h :
  first_prompts_logged h dataset_train ->
  spec first_prompts_event h (after_datasets config tokenizer model dataset_train)
       (fun _ _ => True) (fun _ _ => True).
Proof.
  intros Hh. wp_in after_datasets.
  all: try logged.
  all: apply spec_print_outputs_any; logged.
Qed.

Ltac sets_of_history :=
  rewrite !latest_snoc; unfold train_args, validation_args; reflexivity.

Lemma after_model_first_prompts config tokenizer model h :
  spec first_prompts_event h (after_model config tokenizer model)
       (fun _ _ => True) (fun _ _ => True).
Proof.
  wp_in after_model.
  all: try logged.
  all: apply after_datasets_first_prompts.
  all: apply first_prompts_logged_now; sets_of_history.
Qed.

Lemma run_first_prompts config h :
  spec first_prompts_event h (run config) (fun _ _ => True) (fun _ _ => True).
Proof.
  wp_in run.
  all: try logged.
  all: apply after_model_first_prompts.
Qed.

(** X5: in every run, the system template, the encoding of the test prompt
    and the generation come only after the [text] column of the training
    set and then that of the validation set were read and found not empty,
    each first prompt being put in its debug message; the sets are the ones
    the script holds at that point (after the fallback split and the
    selection, if any), and the system template is fitted on that training
    set. *)
Theorem first_prompts_before_generation w :
  each_event first_prompts_event (trace (main w)).
Proof.
  destruct (main_lift_all first_prompts_event (fun _ _ => True)) with (w := w)
    as [Hev _]; trivial.
  - intros pre e He. destruct e; try discriminate He; discriminate.
  - intros config. apply run_first_prompts.
Qed.

End FirstPrompts.

(** ** The size of the training set *)

Section TrainingSize.

Local Open Scope list_scope.

Context {O : Objects} {F : Framework}.

Lemma py_range_In n i : In i (py_range n) <-> (0 <= i < n)%Z.
Proof.
  unfold py_range. rewrite in_map_iff. split.
  - intros (k & <- & Hk). apply in_seq in Hk. lia.
  - intros Hi. exists (Z.to_nat i). split; [lia |]. apply in_seq. lia.
Qed.

Lemma py_range_length n : List.length (py_range n) = Z.to_nat n.
Proof. unfold py_range. now rewrite length_map, length_seq. Qed.

Ltac training_size :=
  unfold training_size_event; intros;
  first [ exact Logic.I
        | congruence
        | match goal with
          | Hn : training_size ?c = Some ?n, Hz : training_size ?c = Some ?z |- _ =>
              rewrite Hz in Hn; injection Hn as <-
          end;
          first [ solve [eauto 60 with hist]
                | exfalso;
                  match goal with
                  | Ht : negb (?z =? 0)%Z = false, Hne : ?z <> 0%Z |- _ =>
                      apply Hne, Z.eqb_eq; now destruct (z =? 0)%Z
                  end ]
        | eexists; split; [eassumption |]; split; [| reflexivity];
          match goal with
          | Ht : negb (?z =? 0)%Z = true |- _ =>
              apply Z.eqb_neq; now destruct (z =? 0)%Z
          end
        | solve [eauto 60 with hist] ].

Lemma after_datasets_training_size config tokenizer model dataset_train h :
  (forall n, training_size config = Some n -> n <> 0%Z ->
             exists d0, In (Select d0 (py_range n) (Ok dataset_train)) h) ->
  spec (training_size_event config) h
       (after_datasets config tokenizer model dataset_train)
       (fun _ _ => True) (fun _ _ => True).
Proof.
  intros Hh. wp_in after_datasets.
  all: try (unfold training_size_event; first [exact Logic.I | exact Hh]).
  all: apply spec_print_outputs_any; intros; exact Logic.I.
Qed.

Lemma after_model_training_size config tokenizer model h :
  spec (training_size_event config) h (after_model config tokenizer model)
       (fun _ _ => True) (fun _ _ => True).
Proof.
  wp_in after_model.
  all: try (unfold training_size_event; exact Logic.I).
  all: try (apply after_datasets_training_size).
  all: training_size.
Qed.

Lemma run_training_size config h :
  spec (training_size_event config) h (run config) (fun _ _ => True) (fun _ _ => True).
Proof.
  wp_in run.
  all: try (unfold training_size_event; exact Logic.I).
  all: apply after_model_training_size.
Qed.

(** X6: in a run with configuration [config], [select] is only called when
    [training_size] is an integer other than 0, with the indices
    [range(training_size)], that is the integers from 0 up to
    [training_size - 1] (none when it is negative); the system template is
    then fitted on the selected set. *)
Theorem training_size_selects w config :
  parsed (trace (main w)) config ->
  each_event (training_size_event config) (trace (main w)) /\
  (forall n i, In i (py_range n) <-> (0 <= i < n)%Z) /\
  (forall n, List.length (py_range n) = Z.to_nat n).
Proof.
  intros Hp. split; [| split; [exact py_range_In | exact py_range_length]].
  destruct (main_lift training_size_event (fun _ _ _ => True) (fun _ _ _ => True))
    with (w := w) (config := config) as [Hev _]; trivial.
  - intros c. apply each_event_prelude.
    intros pre e He. destruct e; try discriminate He; exact Logic.I.
  - intros c. apply run_training_size.
Qed.

End TrainingSize.

(** ** The arguments of the data set calls *)

Section DatasetCalls.

Local Open Scope list_scope.

Context {O : Objects} {F : Framework}.

Ltac dataset_call :=
  unfold dataset_call_event, most_common_init_applies, tokenizer_from_dispatch in *;
  decide_tests;
  first [exact Logic.I | solve [eauto 60 with hist]].

Lemma after_datasets_dataset_call config tokenizer model dataset_train h :
  spec (dataset_call_event config) h
       (after_datasets config tokenizer model dataset_train)
       (fun _ _ => True) (fun _ _ => True).
Proof.
  wp_in after_datasets.
  all: try dataset_call.
  all: apply spec_print_outputs_any; intros; exact Logic.I.
Qed.

Lemma after_model_dataset_call config tokenizer model h :
  tokenizer_from_dispatch config h tokenizer ->
  spec (dataset_call_event config) h (after_model config tokenizer model)
       (fun _ _ => True) (fun _ _ => True).
Proof.
  intros Ht. wp_in after_model.
  all: try dataset_call.
  all: apply after_datasets_dataset_call.
Qed.

Lemma run_dataset_call config h :
  spec (dataset_call_event config) h (run config) (fun _ _ => True) (fun _ _ => True).
Proof.
  wp_in run.
  all: try dataset_call.
  all: apply after_model_dataset_call; dataset_call.
Qed.

(** X7: in a run with configuration [config], the data set for the initial
    text is asked for only when the test of line 65 holds, as the [train]
    split with an empty end-of-sequence token and without labels; the other
    data set calls pass the end-of-sequence token of the tokenizer and either
    the keywords of line 107 or, after that call has returned, those of line
    116 with the support set it returned. *)
Theorem dataset_call_arguments w config :
  parsed (trace (main w)) config ->
  each_event (dataset_call_event config) (trace (main w)).
Proof.
  intros Hp.
  destruct (main_lift dataset_call_event (fun _ _ _ => True) (fun _ _ _ => True))
    with (w := w) (config := config) as [Hev _]; trivial.
  - intros c. apply each_event_prelude.
    intros pre e He. destruct e; try discriminate He; exact Logic.I.
  - intros c. apply run_dataset_call.
Qed.

End DatasetCalls.

(** ** The messages of the fallback *)

Section FallbackLog.

Local Open Scope list_scope.

Context {O : Objects} {F : Framework}.

Ltac fallback_log :=
  unfold fallback_log_event;
  first [ exact Logic.I
        | repeat split;
          first [ reflexivity | assumption | congruence
                | rewrite !existsb_app; cbn; rewrite ?orb_true_r; reflexivity ] ].

Lemma after_datasets_fallback_log config tokenizer model dataset_train h :
  spec (fallback_log_event config) h
       (after_datasets config tokenizer model dataset_train)
       (fun _ _ => True) (fun _ _ => True).
Proof.
  wp_in after_datasets.
  all: try fallback_log.
  all: apply spec_print_outputs_any; intros; exact Logic.I.
Qed.

Lemma after_model_fallback_log config tokenizer model h :
  spec (fallback_log_event config) h (after_model config tokenizer model)
       (fun _ _ => True) (fun _ _ => True).
Proof.
  wp_in after_model.
  all: try fallback_log.
  all: apply after_datasets_fallback_log.
Qed.

Lemma run_fallback_log config h :
  spec (fallback_log_event config) h (run config) (fun _ _ => True) (fun _ _ => True).
Proof.
  wp_in run.
  all: try fallback_log.
  all: apply after_model_fallback_log.
Qed.

(** X8: in a run with configuration [config], the only message at level INFO
    is the one of line 127 and the only warning the one of lines 128-129;
    both come after a failed call for the validation split, the first only
    with a [validation_split_size] and the second only with
    [dynamic_examples]. *)
Theorem fallback_messages w config :
  parsed (trace (main w)) config ->
  each_event (fallback_log_event config) (trace (main w)).
Proof.
  intros Hp.
  destruct (main_lift fallback_log_event (fun _ _ _ => True) (fun _ _ _ => True))
    with (w := w) (config := config) as [Hev _]; trivial.
  - intros c. apply each_event_prelude.
    intros pre e He. destruct e; try discriminate He; exact Logic.I.
  - intros c. apply run_fallback_log.
Qed.

End FallbackLog.

(** ** The prelude *)

Section Prelude.

Local Open Scope list_scope.

Context {O : Objects} {F : Framework}.

(** X9: a run whose command line gives [config] starts by seeding with 42,
    parsing, and setting the level of the logger to DEBUG when [verbose] is
    set and to INFO otherwise; the seed, the parser and the level are not
    touched again. *)
Theorem prelude_once w config :
  parsed (trace (main w)) config ->
  exists rest,
    trace (main w)
    = SetSeed 42 :: GetConfigFromArgparser (Ok config)
      :: SetLevel (if verbose config then DEBUG else INFO) :: rest /\
    Forall (fun e => is_prelude e = false) rest.
Proof.
  intros Hp. destruct (main_parsed w config Hp) as (w' & Ht & _).
  exists (trace (run config w')). split; [exact Ht |].
  destruct (run_footprint config (prelude config) w') as [Hev _].
  apply Forall_forall. intros e Hin.
  destruct (each_event_from_In _ _ _ _ Hev Hin) as (_ & _ & _ & [He _]). exact He.
Qed.

(** X12: every run, also one whose command line is rejected, starts with
    [set_seed(42)], before the parser and every other call, and the
    generators are not seeded a second time. *)
Theorem seed_set_first w :
  exists rest,
    trace (main w) = SetSeed 42 :: rest /\
    Forall (fun e => match e with SetSeed _ => False | _ => True end) rest.
Proof.
  destruct (main_cases w) as [(e & _ & Ht) | (config & w' & Ht & _)]; rewrite Ht.
  - eexists. split; [reflexivity |]. repeat constructor.
  - eexists. split; [reflexivity |]. do 2 (constructor; [exact Logic.I |]).
    destruct (run_footprint config (prelude config) w') as [Hev _].
    apply Forall_forall. intros x Hin.
    destruct (each_event_from_In _ _ _ _ Hev Hin) as (_ & _ & _ & [Hx _]).
    destruct x; try exact Logic.I; discriminate Hx.
Qed.

End Prelude.

(** ** The validation split when there is one *)

Section ValidationAvailable.

Local Open Scope list_scope.

Context {O : Objects} {F : Framework}.

Lemma bind_try_call_ok {A B C} op ev (f : A -> M B) (h : M B) (k : B -> M C) w a w' b :
  op w = (Ok a, w') -> f a = ret b ->
  bind (try_except (bind (call op ev) f) h) k w = after_events [ev (Ok a)] (k b w').
Proof.
  intros H Hf. unfold bind, try_except, call. rewrite H. cbn [result world trace].
  rewrite Hf. reflexivity.
Qed.

(** X10: when the call for the validation split returns, no split is made: the
    section goes on with the support set and the training set of the first
    call and the validation set of the second; the support set that the
    second call returns is dropped. *)
Theorem validation_available config tokenizer w support train w1 support' val w2 :
  get_support_and_tuning_dataset (dataset_recipe config) (dataset_name config)
    (train_args config tokenizer) w = (Ok (support, train), w1) ->
  get_support_and_tuning_dataset (dataset_recipe config) (dataset_name config)
    (validation_args config tokenizer support) w1 = (Ok (support', val), w2) ->
  dataset_section config tokenizer w
  = after_events
      [GetSupportAndTuningDataset (dataset_recipe config) (dataset_name config)
         (train_args config tokenizer) (Ok (support, train));
       GetSupportAndTuningDataset (dataset_recipe config) (dataset_name config)
         (validation_args config tokenizer support) (Ok (support', val))]
      (subset_and_log config support train val w2).
Proof.
  intros Htrain Hval. unfold dataset_section.
  rewrite (bind_call_ok _ _ _ _ _ _ Htrain). cbv beta iota.
  rewrite (bind_try_call_ok _ _ _ _ _ _ _ _ (train, val) Hval eq_refl).
  cbv beta iota. now rewrite after_events_after.
Qed.

End ValidationAvailable.

(** ** How often a call is made *)

Section Once.

Local Open Scope list_scope.

Context {O : Objects} {F : Framework}.

Lemma existsb_impl (p q : Event -> bool) l :
  (forall x, p x = true -> q x = true) -> existsb q l = false -> existsb p l = false.
Proof.
  intros Hpq Hq. destruct (existsb p l) eqn:Hp; [| reflexivity].
  apply existsb_exists in Hp as (x & Hin & Hx).
  rewrite <- Hq. symmetry. apply existsb_exists. exists x. auto.
Qed.

Lemma after_datasets_in_after_model x : is_after_datasets x = true -> is_after_model x = true.
Proof. destruct x; simpl; congruence. Qed.

(** An event of a part of the script has no event of its kind in a history
    without events of that part. *)
Ltac fresh_kind :=
  rewrite ?existsb_app;
  match goal with
  | Hh : existsb ?q ?l = false |- context [existsb ?p ?l] =>
      rewrite (existsb_impl p q l)
        by first [exact Hh | intros x; destruct x; unfold same_kind; simpl; congruence]
  end;
  reflexivity.

Ltac at_most_once :=
  unfold once_event; intros;
  first [ discriminate | reflexivity | fresh_kind ].

Lemma after_datasets_once config tokenizer model dataset_train h :
  existsb is_after_datasets h = false ->
  spec once_event h (after_datasets config tokenizer model dataset_train)
       (fun _ _ => True) (fun _ _ => True).
Proof.
  intros Hh. wp_in after_datasets.
  all: try at_most_once.
  all: apply spec_print_outputs_any; intros; intros Hr; discriminate Hr.
Qed.

Lemma after_model_once config tokenizer model h :
  existsb is_after_model h = false ->
  spec once_event h (after_model config tokenizer model)
       (fun _ _ => True) (fun _ _ => True).
Proof.
  intros Hh. wp_in after_model.
  all: try at_most_once.
  all: apply after_datasets_once; fresh_kind.
Qed.

Lemma run_once config :
  spec once_event (prelude config) (run config) (fun _ _ => True) (fun _ _ => True).
Proof.
  wp_in run.
  all: try (unfold once_event; intros; first [discriminate | reflexivity]).
  all: apply after_model_once; reflexivity.
Qed.

(** X11: in every run each call is made at most once, apart from logging, the
    reading of a [text] column, the two data set calls of lines 107 and 116
    and the decoding and printing of the loop: one seed, one parse, one
    tokenizer, one model, at most one split, selection, proxy and
    generation. *)
Theorem calls_made_once w : each_event once_event (trace (main w)).
Proof.
  destruct (main_cases w) as [(e & _ & Ht) | (config & w' & Ht & _)]; rewrite Ht.
  - unfold each_event.
    repeat (apply each_event_from_cons; [intros _; reflexivity |]).
    apply each_event_from_nil.
  - destruct (run_once config w') as [Hev _].
    apply each_event_from_app; [| exact Hev]. unfold prelude.
    repeat (apply each_event_from_cons; [intros _; reflexivity |]).
    apply each_event_from_nil.
Qed.

End Once.

(** ** The further properties on the small framework *)

Lemma training_size_selects_witness :
  parsed (trace (Toy.prompt_run 7%Z)) Toy.prompt_config /\
  each_event (training_size_event Toy.prompt_config) (trace (Toy.prompt_run 7%Z)).
Proof.
  split; [exact prompt_run_parsed |].
  exact (proj1 (@training_size_selects Toy.objects
                  (Toy.framework (Ok Toy.prompt_config) false) 7%Z Toy.prompt_config
                  prompt_run_parsed)).
Defined.

Lemma dataset_call_arguments_witness :
  parsed (trace (Toy.prompt_run 7%Z)) Toy.prompt_config /\
  each_event (dataset_call_event Toy.prompt_config) (trace (Toy.prompt_run 7%Z)).
Proof.
  split; [exact prompt_run_parsed |].
  exact (@dataset_call_arguments Toy.objects
           (Toy.framework (Ok Toy.prompt_config) false) 7%Z Toy.prompt_config
           prompt_run_parsed).
Defined.

Lemma fallback_messages_witness :
  parsed (trace (Toy.prompt_run 7%Z)) Toy.prompt_config /\
  each_event (fallback_log_event Toy.prompt_config) (trace (Toy.prompt_run 7%Z)).
Proof.
  split; [exact prompt_run_parsed |].
  exact (@fallback_messages Toy.objects
           (Toy.framework (Ok Toy.prompt_config) false) 7%Z Toy.prompt_config
           prompt_run_parsed).
Defined.

Lemma prelude_once_witness :
  parsed (trace (Toy.prompt_run 7%Z)) Toy.prompt_config /\
  exists rest,
    trace (Toy.prompt_run 7%Z)
    = SetSeed 42 :: GetConfigFromArgparser (Ok Toy.prompt_config) :: SetLevel DEBUG :: rest /\
    Forall (fun e => is_prelude e = false) rest.
Proof.
  split; [exact prompt_run_parsed |].
  exact (@prelude_once Toy.objects
           (Toy.framework (Ok Toy.prompt_config) false) 7%Z Toy.prompt_config
           prompt_run_parsed).
Defined.

Lemma validation_available_witness :
  @dataset_section Toy.objects (Toy.framework (Ok Toy.plain_config) true)
    Toy.plain_config "llama" 42%Z
  = after_events
      [@GetSupportAndTuningDataset Toy.objects "gsm8k" "gsm8k"
         (@train_args Toy.objects Toy.plain_config "llama")
         (Ok (["shot"], ["p1"; "p2"; "p3"; "p4"]));
       @GetSupportAndTuningDataset Toy.objects "gsm8k" "gsm8k"
         (@validation_args Toy.objects Toy.plain_config "llama" ["shot"])
         (Ok (["shot"], ["v1"]))]
      (@subset_and_log Toy.objects (Toy.framework (Ok Toy.plain_config) true)
         Toy.plain_config ["shot"] ["p1"; "p2"; "p3"; "p4"] ["v1"] 42%Z).
Proof.
  apply (@validation_available Toy.objects (Toy.framework (Ok Toy.plain_config) true)
           Toy.plain_config "llama" 42%Z ["shot"] ["p1"; "p2"; "p3"; "p4"] 42%Z
           ["shot"] ["v1"] 42%Z).
  - reflexivity.
  - reflexivity.
Defined.

(** The prompt-tuning run of the small framework: the validation call
    fails, the training set is split and cut to two examples, and the system
    template is fitted on the cut set. *)
Example prompt_run_selects :
  In (@Select Toy.objects ["p1"; "p2"; "p3"] [0; 1]%Z (Ok ["p1"; "p2"]))
     (trace (Toy.prompt_run 7%Z)) /\
  In (@FitSystemTemplateTokens Toy.objects ["p1"; "p2"] "llama-chat" "llama"
        (Ok "llama-chat"))
     (trace (Toy.prompt_run 7%Z)).
Proof.
  split; vm_compute.
  - do 19 right. left. reflexivity.
  - do 24 right. left. reflexivity.
Qed.
